(** * rtv: the entry point [rtv/__main__.py] and the texts of [rtv/docs.py]

    A shallow embedding of [main()]: the start-up sequence, the merge of the
    configuration file into the parsed arguments, the curses session with its
    [try / except / finally] statement, and the SIGINT handler that [main]
    installs.  Calls into modules that live outside the two files are kept
    as events of a trace; what they return or raise is read from an
    environment record. *)

From Stdlib Require Import ZArith Lia Ascii Sorted.
From stdpp Require Import base option list strings gmap.

Set Warnings "-register-all".

Local Open Scope Z_scope.

(** ** Python values, exceptions, outcomes *)

(** The values an [argparse.Namespace] attribute or a configuration entry
    holds. *)
Inductive value :=
| VNone
| VBool (b : bool)
| VInt (z : Z)
| VStr (s : string).

#[global] Instance value_eq_dec : EqDecision value.
Proof. solve_decision. Defined.

(** [bool(v)]: the test of [if v:]. *)
Definition truthy (v : value) : bool :=
  match v with
  | VNone => false
  | VBool b => b
  | VInt z => negb (z =? 0)
  | VStr s => negb (String.eqb s "")
  end.

(** [v is None]. *)
Definition is_None (v : value) : bool :=
  match v with VNone => true | _ => false end.

(** [a or b]. *)
Definition py_or (a b : value) : value := if truthy a then a else b.

(** The exception classes [main] tells apart: the three named in its first
    [except] clause, [KeyboardInterrupt] of the second one, and those that no
    clause catches. *)
Inductive exn_class :=
| RequestException
| PRAWException
| RTVError
| KeyboardInterrupt
| SystemExit
| NameError
| AttributeError
| OtherError.

(** An exception object: the class an [except] clause matches it against,
    [type(e).__name__] and [str(e)]. *)
Record exn := mkExn {
  exn_cls : exn_class;
  exn_name : string;
  exn_msg : string
}.

Inductive outcome (A : Type) :=
| Ret (a : A)
| Raise (e : exn).
Arguments Ret {A} a.
Arguments Raise {A} e.

(** [except (exceptions.RequestException, praw.errors.PRAWException,
    RTVError)]. *)
Definition is_service_error (e : exn) : bool :=
  match exn_cls e with
  | RequestException | PRAWException | RTVError => true
  | _ => false
  end.

Definition is_keyboard_interrupt (e : exn) : bool :=
  match exn_cls e with KeyboardInterrupt => true | _ => false end.

Definition SystemExit_exn : exn := mkExn SystemExit "SystemExit" "".

(** Reading the closure variable [stdscr] of [main] from [sigint_handler]
    before the [with] statement has bound it. *)
Definition NameError_stdscr : exn :=
  mkExn NameError "NameError"
    "free variable 'stdscr' referenced before assignment in enclosing scope".

(** Reading the local [reddit] of [main] before the constructor has
    returned. *)
Definition UnboundLocalError_reddit : exn :=
  mkExn NameError "UnboundLocalError"
    "local variable 'reddit' referenced before assignment".

Definition AttributeError_of (attr : string) : exn :=
  mkExn AttributeError "AttributeError"
    ("'Namespace' object has no attribute '" +:+ attr +:+ "'").

(** ** docs.py *)

(** [AGENT.format(version=v)]: the two backslash-newlines of the literal join
    its three lines. *)
Definition AGENT_format (version : string) : string :=
  "desktop:https://github.com/michael-lazar/rtv:" +:+ version +:+
  "(by /u/civilization_phaze_3)".

(** ** Navigation state *)

(** Modelled from the spec: the page classes ([submission.py],
    [subreddit.py]) are not among the sources.  A content node has an
    identifier, a load state, a fold flag and an ordered sequence of
    children (spec, section 3). *)
Inductive LoadState :=
| NotLoaded
| Loading
| Loaded
| Failed (reason : string).

Inductive ContentNode :=
| Node (ident : string) (loadState : LoadState) (folded : bool)
       (children : list ContentNode).

(** Modelled from the spec: the flattened view is the depth-first traversal
    of the tree that skips the subtree of a folded node (glossary). *)
Fixpoint flatten (n : ContentNode) : list string :=
  match n with
  | Node ident _ fo ch =>
      ident :: (if fo then [] else concat (map flatten ch))
  end.

Definition flatten_page (p : list ContentNode) : list string :=
  concat (map flatten p).

(** Modelled from the spec: the node shown in row [i] of the flattened
    view, if the view has such a row. *)
Fixpoint node_in (i : nat) (n : ContentNode) : option ContentNode :=
  match n with
  | Node _ _ fo ch =>
      match i with
      | O => Some n
      | S j =>
          if fo then None
          else (fix go (j : nat) (l : list ContentNode) : option ContentNode :=
                  match l with
                  | [] => None
                  | c :: cs =>
                      let k := length (flatten c) in
                      if (j <? k)%nat then node_in j c else go (j - k)%nat cs
                  end) j ch
      end
  end.

(** Modelled from the spec: the same over the top-level entries of a page. *)
Fixpoint node_at (i : nat) (p : list ContentNode) : option ContentNode :=
  match p with
  | [] => None
  | c :: cs =>
      let k := length (flatten c) in
      if (i <? k)%nat then node_in i c else node_at (i - k)%nat cs
  end.

(** Modelled from the spec: the store rewrites the node shown in row [i]
    with [op] and leaves every other node as it is; a row the view does not
    have changes nothing. *)
Fixpoint update_in (op : ContentNode → ContentNode) (i : nat)
  (n : ContentNode) : ContentNode :=
  match n with
  | Node ident ls fo ch =>
      match i with
      | O => op n
      | S j =>
          if fo then n
          else Node ident ls fo
                 ((fix go (j : nat) (l : list ContentNode) : list ContentNode :=
                     match l with
                     | [] => []
                     | c :: cs =>
                         let k := length (flatten c) in
                         if (j <? k)%nat then update_in op j c :: cs
                         else c :: go (j - k)%nat cs
                     end) j ch)
      end
  end.

(** Modelled from the spec: the same over the top-level entries of a page. *)
Fixpoint update_at (op : ContentNode → ContentNode) (i : nat)
  (p : list ContentNode) : list ContentNode :=
  match p with
  | [] => []
  | c :: cs =>
      let k := length (flatten c) in
      if (i <? k)%nat then update_in op i c :: cs
      else c :: update_at op (i - k)%nat cs
  end.

(** Modelled from the spec: [toggleFold(node)], a pure flip of the fold
    flag. *)
Definition flip_fold (n : ContentNode) : ContentNode :=
  match n with
  | Node ident ls fo ch => Node ident ls (negb fo) ch
  end.

(** Modelled from the spec: what [loadMore] does to its node.  A node that
    is [NotLoaded] or [Failed] takes the fetched page of children at once
    and becomes [Loaded], or keeps its children and becomes [Failed]; any
    other node is left as it is. *)
Definition commit (fetched : list ContentNode + string) (n : ContentNode)
  : ContentNode :=
  match n with
  | Node ident ls fo ch =>
      match ls with
      | NotLoaded | Failed _ =>
          match fetched with
          | inl new => Node ident Loaded fo (ch ++ new)
          | inr reason => Node ident (Failed reason) fo ch
          end
      | _ => n
      end
  end.

(** Modelled from the spec: the cursor and scroll model of section 4.2 over
    the page it is derived from. *)
Record NavigationState := mkNav {
  page : list ContentNode;
  selectedIndex : Z;
  scrollOffset : Z;
  viewportHeight : Z
}.

Definition visibleRows (s : NavigationState) : list string :=
  flatten_page (page s).

Definition rows (s : NavigationState) : Z := Z.of_nat (length (visibleRows s)).

Definition clamp (lo hi x : Z) : Z := Z.max lo (Z.min hi x).

(** Modelled from the spec: shift [scrollOffset] as little as possible so
    that the selection is inside the viewport. *)
Definition recomputeScroll (s : NavigationState) : NavigationState :=
  let sel := selectedIndex s in
  let off := scrollOffset s in
  let h := viewportHeight s in
  mkNav (page s) sel
    (if sel <? off then sel
     else if off + h - 1 <? sel then sel - h + 1
     else off)
    h.

(** Modelled from the spec: [moveSelection(delta)] clamps to
    [[0, len(visibleRows)-1]]. *)
Definition moveSelection (delta : Z) (s : NavigationState) : NavigationState :=
  mkNav (page s) (clamp 0 (rows s - 1) (selectedIndex s + delta))
    (scrollOffset s) (viewportHeight s).

(** Modelled from the spec: a full viewport down, the new selection at the
    top row. *)
Definition pageDown (s : NavigationState) : NavigationState :=
  let sel := clamp 0 (rows s - 1) (selectedIndex s + viewportHeight s) in
  mkNav (page s) sel sel (viewportHeight s).

(** Modelled from the spec: a full viewport up, the new selection at the
    bottom row. *)
Definition pageUp (s : NavigationState) : NavigationState :=
  let sel := clamp 0 (rows s - 1) (selectedIndex s - viewportHeight s) in
  mkNav (page s) sel (sel - (viewportHeight s - 1)) (viewportHeight s).

(** Modelled from the spec: the number of rows the node of row [i] takes
    up in the view, itself included. *)
Definition span (i : nat) (p : list ContentNode) : Z :=
  match node_at i p with
  | Some n => Z.of_nat (length (flatten n))
  | None => 0
  end.

(** Modelled from the spec: where the selection is after the node of row
    [i] went from [before] rows to [after] rows.  A selection at or above
    the node stays; one below the node's rows moves with its row; one inside
    them stays if its row is still there and otherwise moves to the node
    (the tie-break rule: the ancestor that collapsed). *)
Definition follow (i before after sel : Z) : Z :=
  if sel <=? i then sel
  else if sel <? i + before then (if sel <? i + after then sel else i)
  else sel + after - before.

(** Modelled from the spec: a structural change of the node of row [i]:
    the store rewrites the node, the selection follows. *)
Definition rewrite_row (op : ContentNode → ContentNode) (i : nat)
  (s : NavigationState) : NavigationState :=
  let p' := update_at op i (page s) in
  mkNav p'
    (follow (Z.of_nat i) (span i (page s)) (span i p') (selectedIndex s))
    (scrollOffset s) (viewportHeight s).

(** Modelled from the spec: [toggleFold(node)] for the node of any row of
    the view. *)
Definition toggleFold (i : nat) : NavigationState → NavigationState :=
  rewrite_row flip_fold i.

(** Modelled from the spec: [loadMore(node)], for the selected node or on
    an explicit command for another one. *)
Definition loadMore (i : nat) (fetched : list ContentNode + string)
  : NavigationState → NavigationState :=
  rewrite_row (commit fetched) i.

Definition resize (h : Z) (s : NavigationState) : NavigationState :=
  mkNav (page s) (selectedIndex s) (scrollOffset s) h.

(** Modelled from the spec: [loadPage] opens a fresh browsing context and
    drops the previous page. *)
Definition loadPage (p : list ContentNode) (h : Z) : NavigationState :=
  mkNav p 0 0 h.

Inductive command :=
| MoveSelection (delta : Z)
| PageDown
| PageUp
| ToggleFold (i : nat)
| LoadMore (i : nat) (fetched : list ContentNode + string)
| Resize (h : Z)
| LoadPage (p : list ContentNode).

(** Modelled from the spec: one turn of the input loop: interpret the
    command, then redraw, which restores the scroll position. *)
Definition step (c : command) (s : NavigationState) : NavigationState :=
  recomputeScroll
    match c with
    | MoveSelection d => moveSelection d s
    | PageDown => pageDown s
    | PageUp => pageUp s
    | ToggleFold i => toggleFold i s
    | LoadMore i f => loadMore i f s
    | Resize h => resize h s
    | LoadPage p => loadPage p (viewportHeight s)
    end.

(** The states the input loop can be in: a freshly loaded page, and whatever
    a command leads to; the render surface reports at least one row. *)
Inductive reachable : NavigationState -> Prop :=
| reach_init p h : 0 < h -> reachable (recomputeScroll (loadPage p h))
| reach_step c s :
    reachable s ->
    match c with Resize h => 0 < h | _ => True end ->
    reachable (step c s).

(** ** The machine [main] runs on *)

(** What [main] does to the world, in program order. *)
Inductive event :=
| EvSignalInstall
| EvCaptureWarnings
| EvSetLocale
| EvStdoutWrite (s : string)
| EvParseArgs
| EvLoadConfig
| EvClearRefreshToken
| EvLoggingBasicConfig (filename : value)
| EvLoggingNullHandler
| EvCursesEnter
| EvCursesExit
| EvPrint (s : string)
| EvRedditCtor (user_agent : string)
| EvOAuthCtor
| EvAuthorize
| EvSubmissionPage (url : value)
| EvIsOAuthSession (b : bool)
| EvLoadScreenEnter (message : string)
| EvLoadScreenExit
| EvGetMySubreddits
| EvSubredditPage (name : value) (subscription_names : list string)
| EvLoggerException (e : exn)
| EvPromptYesNo (prompt : string) (answer : bool)
| EvSysExit
| EvHttpClose
| EvIOLoopClose.

(** What a page loop leaves behind: whether the user logged in or out while
    the page was shown (docs.py: [u] logs in or switches accounts on every
    page), and how the loop ended. *)
Record loop_result := mkLoop {
  loop_session : option bool;
  loop_outcome : outcome unit
}.

(** The surroundings of one run: what the modules outside the two source
    files return or raise.  [parse_args], [load_config],
    [clear_refresh_token], the logging set-up, [curses_session] and the two
    [close] calls are taken to return. *)
Record Env := mkEnv {
  version : string;                          (* __version__ *)
  parsed_args : gmap string value;           (* parser.parse_args() *)
  local_config : list (string * value);      (* config.load_config().items() *)
  persisted_token : option string;           (* the token file at start *)
  reddit_ctor : outcome unit;                (* praw.Reddit(...) *)
  oauth_ctor : outcome unit;                 (* OAuthTool(...) *)
  authorize : outcome unit;                  (* oauth.authorize() *)
  submission_loop : loop_result;             (* SubmissionPage(...).loop() *)
  get_my_subreddits : outcome (list string); (* str() of each subscription *)
  subreddit_loop : loop_result;              (* SubredditPage(...).loop() *)
  answers : nat -> bool                      (* the n-th yes/no prompt *)
}.

Record State := mkState {
  trace : list event;
  sigint_installed : bool;           (* signal.signal(SIGINT, ...) was run *)
  stdscr_bound : bool;               (* the cell of [stdscr] is filled *)
  reddit_bound : bool;               (* the local [reddit] is assigned *)
  args : gmap string value;          (* args.__dict__ *)
  config_unicode : bool;             (* config.unicode *)
  config_persistent : bool;          (* config.persistent *)
  token_file : option string;        (* the persisted refresh token *)
  oauth_refresh_token : value;       (* oauth.refresh_token *)
  session_active : bool;             (* reddit.is_oauth_session() *)
  prompts_shown : nat;
  nav : option NavigationState       (* the page whose loop is running *)
}.

Definition initial_state (env : Env) : State :=
  mkState [] false false false ∅ true true (persisted_token env) VNone false
    O None.

(** A state and error monad over [State]. *)
Definition M (A : Type) : Type := State -> outcome A * State.

Definition ret {A} (a : A) : M A := fun st => (Ret a, st).
Definition raise {A} (e : exn) : M A := fun st => (Raise e, st).
Definition bind {A B} (m : M A) (k : A -> M B) : M B :=
  fun st =>
    match m st with
    | (Ret a, st') => k a st'
    | (Raise e, st') => (Raise e, st')
    end.

Declare Scope py_scope.
Delimit Scope py_scope with py.
Notation "x <- m ;; k" := (bind m (fun x => k))
  (at level 100, m at next level, right associativity) : py_scope.
Notation "m ;; k" := (bind m (fun _ => k))
  (at level 100, right associativity) : py_scope.
Local Open Scope py_scope.

Definition get {A} (f : State -> A) : M A := fun st => (Ret (f st), st).
Definition modify (f : State -> State) : M unit := fun st => (Ret tt, f st).

Definition when (b : bool) (m : M unit) : M unit := if b then m else ret tt.

(** Field updates. *)
Definition add_event (e : event) (st : State) : State :=
  mkState (trace st ++ [e]) (sigint_installed st) (stdscr_bound st)
    (reddit_bound st) (args st) (config_unicode st) (config_persistent st)
    (token_file st) (oauth_refresh_token st) (session_active st)
    (prompts_shown st) (nav st).
Definition set_sigint_installed (st : State) : State :=
  mkState (trace st) true (stdscr_bound st)
    (reddit_bound st) (args st) (config_unicode st) (config_persistent st)
    (token_file st) (oauth_refresh_token st) (session_active st)
    (prompts_shown st) (nav st).
Definition set_stdscr_bound (st : State) : State :=
  mkState (trace st) (sigint_installed st) true
    (reddit_bound st) (args st) (config_unicode st) (config_persistent st)
    (token_file st) (oauth_refresh_token st) (session_active st)
    (prompts_shown st) (nav st).
Definition set_reddit_bound (st : State) : State :=
  mkState (trace st) (sigint_installed st) (stdscr_bound st)
    true (args st) (config_unicode st) (config_persistent st)
    (token_file st) (oauth_refresh_token st) (session_active st)
    (prompts_shown st) (nav st).
Definition set_args (a : gmap string value) (st : State) : State :=
  mkState (trace st) (sigint_installed st) (stdscr_bound st)
    (reddit_bound st) a (config_unicode st) (config_persistent st)
    (token_file st) (oauth_refresh_token st) (session_active st)
    (prompts_shown st) (nav st).
Definition set_config_unicode (b : bool) (st : State) : State :=
  mkState (trace st) (sigint_installed st) (stdscr_bound st)
    (reddit_bound st) (args st) b (config_persistent st)
    (token_file st) (oauth_refresh_token st) (session_active st)
    (prompts_shown st) (nav st).
Definition set_config_persistent (b : bool) (st : State) : State :=
  mkState (trace st) (sigint_installed st) (stdscr_bound st)
    (reddit_bound st) (args st) (config_unicode st) b
    (token_file st) (oauth_refresh_token st) (session_active st)
    (prompts_shown st) (nav st).
Definition set_token_file (t : option string) (st : State) : State :=
  mkState (trace st) (sigint_installed st) (stdscr_bound st)
    (reddit_bound st) (args st) (config_unicode st) (config_persistent st)
    t (oauth_refresh_token st) (session_active st)
    (prompts_shown st) (nav st).
Definition set_oauth_refresh_token (v : value) (st : State) : State :=
  mkState (trace st) (sigint_installed st) (stdscr_bound st)
    (reddit_bound st) (args st) (config_unicode st) (config_persistent st)
    (token_file st) v (session_active st)
    (prompts_shown st) (nav st).
Definition set_session_active (b : bool) (st : State) : State :=
  mkState (trace st) (sigint_installed st) (stdscr_bound st)
    (reddit_bound st) (args st) (config_unicode st) (config_persistent st)
    (token_file st) (oauth_refresh_token st) b
    (prompts_shown st) (nav st).
Definition set_prompts_shown (n : nat) (st : State) : State :=
  mkState (trace st) (sigint_installed st) (stdscr_bound st)
    (reddit_bound st) (args st) (config_unicode st) (config_persistent st)
    (token_file st) (oauth_refresh_token st) (session_active st)
    n (nav st).

Definition emit (e : event) : M unit := modify (add_event e).

(** A call whose result comes from the surroundings. *)
Definition call {A} (e : event) (r : outcome A) : M A :=
  fun st => (r, add_event e st).

(** [args.<attr>]. *)
Definition attr (name : string) : M value :=
  fun st =>
    match args st !! name with
    | Some v => (Ret v, st)
    | None => (Raise (AttributeError_of name), st)
    end.

(** [getattr(ns, key, None)] over the dictionary of the instance: what the
    call returns for a [key] that the class of the namespace does not define
    itself. *)
Definition getattr_None (ns : gmap string value) (key : string) : value :=
  default VNone (ns !! key).

(** Lines 55-57:
    [for key, val in local_config.items():
         if getattr(args, key, None) is None: setattr(args, key, val)]. *)
Fixpoint fill_from_config (items : list (string * value))
  (ns : gmap string value) : gmap string value :=
  match items with
  | [] => ns
  | (key, val) :: rest =>
      fill_from_config rest
        (if is_None (getattr_None ns key) then <[key := val]> ns else ns)
  end.

(** Modelled from the spec: [curses_helpers.prompt_yesno] is not among the
    sources.  It puts the question on the render surface, reads the answer
    from the keyboard and returns it as a boolean; the event stands for the
    drawing and the key read together. *)
Definition prompt_yesno (env : Env) (prompt : string) : M bool :=
  fun st =>
    let b := answers env (prompts_shown st) in
    (Ret b,
     set_prompts_shown (S (prompts_shown st))
       (add_event (EvPromptYesNo prompt b) st)).

(** [sys.exit()]. *)
Definition sys_exit {A} : M A :=
  fun st => (Raise SystemExit_exn, add_event EvSysExit st).

Definition quit_prompt : string := "Do you really want to quit? (y/n): ".

(** Lines 35-37:
    [def sigint_handler(signal, frame):
         if prompt_yesno(stdscr, "Do you really want to quit? (y/n): "):
             sys.exit()]
    [stdscr] is a variable of the enclosing [main]. *)
Definition sigint_handler (env : Env) : M unit :=
  bound <- get stdscr_bound ;;
  if bound : bool then
    b <- prompt_yesno env quit_prompt ;;
    if b : bool then sys_exit else ret tt
  else raise NameError_stdscr.

(** The interpreter's own SIGINT handler, in force until line 38 has run. *)
Definition default_int_handler : M unit :=
  raise (mkExn KeyboardInterrupt "KeyboardInterrupt" "").

(** A SIGINT that arrives while the machine is in state [st]. *)
Definition deliver_sigint (env : Env) : M unit :=
  installed <- get sigint_installed ;;
  if installed : bool then sigint_handler env else default_int_handler.

(** [with curses_session() as stdscr: body]; the context manager lets an
    exception of the body through. *)
Definition with_curses_session {A} (body : M A) : M A :=
  fun st =>
    let (r, st') := body (set_stdscr_bound (add_event EvCursesEnter st)) in
    (r, add_event EvCursesExit st').

(** [with LoadScreen(stdscr)(message=msg): body]. *)
Definition with_LoadScreen {A} (msg : string) (body : M A) : M A :=
  fun st =>
    let (r, st') := body (add_event (EvLoadScreenEnter msg) st) in
    (r, add_event EvLoadScreenExit st').

(** [try: body  except ...: handler  finally: final].  [handler e] is [None]
    when no clause matches [e].  An exception of [final] replaces whatever
    was on its way out. *)
Definition try_except_finally (body : M unit)
  (handler : exn -> option (M unit)) (final : M unit) : M unit :=
  fun st =>
    let (r1, st1) := body st in
    let (r2, st2) :=
      match r1 with
      | Ret a => (Ret a, st1)
      | Raise e =>
          match handler e with
          | Some h => h st1
          | None => (Raise e, st1)
          end
      end in
    match final st2 with
    | (Ret _, st3) => (r2, st3)
    | (Raise e', st3) => (Raise e', st3)
    end.

(** [sorted] on strings. *)
Fixpoint insert_sorted (s : string) (l : list string) : list string :=
  match l with
  | [] => [s]
  | x :: xs => if String.leb s x then s :: l else x :: insert_sorted s xs
  end.

Definition sorted (l : list string) : list string :=
  foldr insert_sorted [] l.

(** ** [main] *)

(** Lines 46-47: the escape sequence that sets the terminal title. *)
Definition title_sequence (version : string) : string :=
  String "027"%char "]2;" +:+ ("rtv " +:+ version) +:+ String "007"%char "".

(** Modelled from the spec: [config.clear_refresh_token] is not among the
    sources.  It deletes the persisted token and calls nothing on the
    network. *)
Definition clear_refresh_token : M unit :=
  emit EvClearRefreshToken ;; modify (set_token_file None).

(** Lines 38-69, up to the [with] statement. *)
Definition startup (env : Env) : M unit :=
  modify set_sigint_installed ;;
  emit EvSignalInstall ;;
  emit EvCaptureWarnings ;;
  emit EvSetLocale ;;
  emit (EvStdoutWrite (title_sequence (version env))) ;;
  emit EvParseArgs ;;
  modify (set_args (parsed_args env)) ;;
  emit EvLoadConfig ;;
  modify (fun st => set_args (fill_from_config (local_config env) (args st)) st) ;;
  ascii <- attr "ascii" ;;
  when (truthy ascii) (modify (set_config_unicode false)) ;;
  persistent <- attr "persistent" ;;
  when (negb (truthy persistent)) (modify (set_config_persistent false)) ;;
  clear_auth <- attr "clear_auth" ;;
  when (truthy clear_auth) clear_refresh_token ;;
  log <- attr "log" ;;
  if truthy log then emit (EvLoggingBasicConfig log)
  else emit EvLoggingNullHandler.

Definition value_of_token (t : option string) : value :=
  match t with Some s => VStr s | None => VNone end.

(** Modelled from the spec: [OAuthTool] is not among the sources.  Its
    constructor checks the persisted refresh token and keeps it as
    [oauth.refresh_token]. *)
Definition OAuthTool (env : Env) : M unit :=
  call EvOAuthCtor (oauth_ctor env) ;;
  modify (fun st => set_oauth_refresh_token (value_of_token (token_file st)) st).

(** Modelled from the spec: [oauth.authorize()] with a stored token asks the
    service for access credentials; once it has returned, the session is
    active. *)
Definition oauth_authorize (env : Env) : M unit :=
  call EvAuthorize (authorize env) ;;
  modify (set_session_active true).

(** Lines 73-78. *)
Definition connect (env : Env) : M unit :=
  emit (EvPrint "Connecting...") ;;
  call (EvRedditCtor (AGENT_format (version env))) (reddit_ctor env) ;;
  modify set_reddit_bound ;;
  OAuthTool env ;;
  tok <- get oauth_refresh_token ;;
  when (truthy tok) (oauth_authorize env).

(** [page = ...Page(...); page.loop()]: the page is built and its loop runs
    until the user leaves it or an error gets out. *)
Definition run_loop (e : event) (r : loop_result) : M unit :=
  fun st =>
    let st1 := add_event e st in
    (loop_outcome r,
     match loop_session r with
     | Some b => set_session_active b st1
     | None => st1
     end).

(** [reddit.is_oauth_session()]. *)
Definition is_oauth_session : M bool :=
  b <- get session_active ;;
  emit (EvIsOAuthSession b) ;;
  ret b.

(** Lines 85-91.  The comprehension has a scope of its own (Python 3), so
    its [subreddit] is not the one of line 83. *)
Definition load_subscription_names (env : Env) : M (list string) :=
  auth <- is_oauth_session ;;
  if auth : bool then
    with_LoadScreen "Loading subreddits"
      (subscriptions <- call EvGetMySubreddits (get_my_subreddits env) ;;
       ret (sorted subscriptions))
  else ret [].

(** Lines 80-95. *)
Definition browse (env : Env) : M unit :=
  link <- attr "link" ;;
  when (truthy link) (run_loop (EvSubmissionPage link) (submission_loop env)) ;;
  sub <- attr "subreddit" ;;
  let subreddit := py_or sub (VStr "front") in
  subscription_names <- load_subscription_names env ;;
  run_loop (EvSubredditPage subreddit subscription_names) (subreddit_loop env).

(** Lines 73-95, the body of the [try]. *)
Definition session_body (env : Env) : M unit :=
  connect env ;; browse env.

(** ['{}: {}'.format(type(e).__name__, e)]. *)
Definition error_line (e : exn) : string :=
  exn_name e +:+ ": " +:+ exn_msg e.

(** Lines 96-104, the two [except] clauses. *)
Definition except_clauses (env : Env) (e : exn) : option (M unit) :=
  if is_service_error e then
    Some (emit (EvLoggerException e) ;; emit (EvPrint (error_line e)))
  else if is_keyboard_interrupt e then
    Some (b <- prompt_yesno env quit_prompt ;; when b sys_exit)
  else None.

(** Lines 105-109, the [finally] block. *)
Definition cleanup : M unit :=
  bound <- get reddit_bound ;;
  if bound : bool then emit EvHttpClose ;; emit EvIOLoopClose
  else raise UnboundLocalError_reddit.

(** Lines 71-109. *)
Definition session (env : Env) : M unit :=
  with_curses_session
    (try_except_finally (session_body env) (except_clauses env) cleanup).

Definition main (env : Env) : M unit :=
  startup env ;; session env.

(** Line 111: [sys.exit(main())]. *)
Definition program (env : Env) : M unit :=
  main env ;; sys_exit.

Definition run (env : Env) : outcome unit * State :=
  main env (initial_state env).

(** Events that reach for the content service. *)
Definition is_service_event (e : event) : bool :=
  match e with
  | EvRedditCtor _ | EvOAuthCtor | EvAuthorize | EvSubmissionPage _
  | EvGetMySubreddits | EvSubredditPage _ _ => true
  | _ => false
  end.

Definition is_close_event (e : event) : bool :=
  match e with
  | EvHttpClose | EvIOLoopClose => true
  | _ => false
  end.

Definition is_prompt_event (e : event) : bool :=
  match e with
  | EvPromptYesNo _ _ => true
  | _ => false
  end.

(** ** Sample runs *)

Definition returns : loop_result := mkLoop None (Ret tt).

Definition sample_args : gmap string value :=
  <["ascii" := VBool false]> (<["persistent" := VBool true]>
  (<["clear_auth" := VBool false]> (<["log" := VNone]>
  (<["link" := VNone]> (<["subreddit" := VNone]> ∅))))).

Definition sample_env : Env :=
  mkEnv "1.6" sample_args [("subreddit", VStr "python")] None
    (Ret tt) (Ret tt) (Ret tt) returns (Ret ["b"; "a"]) returns
    (fun _ => false).

Definition ConnectionError : exn :=
  mkExn RequestException "ConnectionError" "Connection aborted.".

(** ** Vocabulary of the statements *)

(** The state in which the body of the [try] starts. *)
Definition entered (st : State) : State :=
  set_stdscr_bound (add_event EvCursesEnter st).

(** The state in which line 71 is reached. *)
Definition before_session (env : Env) : State :=
  snd (startup env (initial_state env)).

(** [args] once lines 55-57 have run. *)
Definition merged_args (env : Env) : gmap string value :=
  fill_from_config (local_config env) (parsed_args env).

(** The events of lines 38-69, when all four attributes are there. *)
Definition startup_events (env : Env) : list event :=
  [EvSignalInstall; EvCaptureWarnings; EvSetLocale;
   EvStdoutWrite (title_sequence (version env)); EvParseArgs; EvLoadConfig]
  ++ (if truthy (getattr_None (merged_args env) "clear_auth")
      then [EvClearRefreshToken] else [])
  ++ [if truthy (getattr_None (merged_args env) "log")
      then EvLoggingBasicConfig (getattr_None (merged_args env) "log")
      else EvLoggingNullHandler].

(** What a SIGINT adds to the trace. *)
Definition sigint_events (env : Env) (st : State) : list event :=
  drop (length (trace st)) (trace (snd (deliver_sigint env st))).

Definition is_authorize_event (e : event) : bool :=
  match e with EvAuthorize => true | _ => false end.

Definition is_fetch_event (e : event) : bool :=
  match e with EvGetMySubreddits => true | _ => false end.

(** An event that is not a subreddit page opened with subscriptions. *)
Definition without_subscriptions (e : event) : bool :=
  match e with
  | EvSubredditPage _ (_ :: _) => false
  | _ => true
  end.

(** The events up to the first one that [stop] picks. *)
Fixpoint until (stop : event → bool) (tr : list event) : list event :=
  match tr with
  | [] => []
  | e :: tr' => if stop e then [] else e :: until stop tr'
  end.

(** The user logs in while the page of a direct link is shown. *)
Definition logs_in_on_link_page (env : Env) : bool :=
  truthy (getattr_None (merged_args env) "link") &&
  match loop_session (submission_loop env) with
  | Some true => true
  | _ => false
  end.

(** Nothing is drawn and no key is read inside the handler. *)
Definition handler_never_renders (env : Env) (st : State) : Prop :=
  existsb is_prompt_event (sigint_events env st) = false.

(** Without a stored token no subscriptions are fetched and the subreddit
    page opens with an empty list. *)
Definition no_token_no_subscriptions (env : Env) : Prop :=
  persisted_token env = None →
  existsb is_fetch_event (trace (snd (run env))) = false ∧
  forallb without_subscriptions (trace (snd (run env))) = true.

(** Further sample surroundings. *)

(** The constructor of the client fails with a connection error. *)
Definition ctor_fails_env : Env :=
  mkEnv "1.6" sample_args [] None
    (Raise ConnectionError) (Ret tt) (Ret tt) returns (Ret []) returns
    (fun _ => false).

(** The subreddit page gives up with a connection error. *)
Definition loop_fails_env : Env :=
  mkEnv "1.6" sample_args [] None
    (Ret tt) (Ret tt) (Ret tt) returns (Ret [])
    (mkLoop None (Raise ConnectionError))
    (fun _ => false).

(** A direct link, no stored token, and a login on the submission page. *)
Definition login_on_link_env : Env :=
  mkEnv "1.6" (<["link" := VStr "https://redd.it/3ab"]> sample_args) [] None
    (Ret tt) (Ret tt) (Ret tt) (mkLoop (Some true) (Ret tt))
    (Ret ["b"; "a"]) returns
    (fun _ => false).

(** [--clear-auth] with a stored token. *)
Definition clear_auth_env : Env :=
  mkEnv "1.6" (<["clear_auth" := VBool true]> sample_args) [] (Some "t0k3n")
    (Ret tt) (Ret tt) (Ret tt) returns (Ret []) returns
    (fun _ => false).

(** A stored token, and two subscriptions behind it. *)
Definition token_env : Env :=
  mkEnv "1.6" sample_args [] (Some "t0k3n")
    (Ret tt) (Ret tt) (Ret tt) returns (Ret ["b"; "a"]) returns
    (fun _ => false).

Definition is_subreddit_page_event (e : event) : bool :=
  match e with EvSubredditPage _ _ => true | _ => false end.

(** A direct link, a stored token, and a subscriptions call that fails. *)
Definition fetch_fails_env : Env :=
  mkEnv "1.6" (<["link" := VStr "https://redd.it/3ab"]> sample_args) []
    (Some "t0k3n")
    (Ret tt) (Ret tt) (Ret tt) returns (Raise ConnectionError) returns
    (fun _ => false).

(** A direct link and nothing else on the command line. *)
Definition link_only_env : Env :=
  mkEnv "1.6" (<["link" := VStr "https://redd.it/3ab"]> sample_args) [] None
    (Ret tt) (Ret tt) (Ret tt) returns (Ret []) returns
    (fun _ => false).

(** After the loop of the submission page has returned, a subreddit page is
    opened. *)
Definition reaches_subreddit_page (env : Env) : Prop :=
  loop_outcome (submission_loop env) = Ret tt →
  existsb is_subreddit_page_event (trace (snd (run env))) = true.

(** A page of three rows: a comment with one reply, and a second comment. *)
Definition sample_page : list ContentNode :=
  [Node "t1_a" Loaded false [Node "t1_b" NotLoaded false []];
   Node "t1_c" Loaded false []].

(** What a rewrite of the node of row [i] does to the rows of a tree [c]. *)
Definition rewrite_spec (op : ContentNode → ContentNode) (c : ContentNode)
  : Prop :=
  ∀ i, (i < length (flatten c))%nat →
    ∃ n, node_in i c = Some n ∧
         node_in i (update_in op i c) = Some (op n) ∧
         (i + length (flatten n) ≤ length (flatten c))%nat ∧
         (length (flatten (update_in op i c)) + length (flatten n)
          = length (flatten c) + length (flatten (op n)))%nat.

(** What every turn of the input loop keeps. *)
Definition nav_ok (s : NavigationState) : Prop :=
  0 < viewportHeight s ∧
  0 ≤ selectedIndex s ∧
  (0 < rows s → selectedIndex s < rows s) ∧
  (rows s = 0 → selectedIndex s = 0).

(** The selection is one of the rows on the screen. *)
Definition in_viewport (s : NavigationState) : Prop :=
  scrollOffset s ≤ selectedIndex s ≤ scrollOffset s + viewportHeight s - 1.

(** ** More of [main] and of docs.py *)


(** A page that was opened: a submission page with its link, or a subreddit
    page with its name. *)
Inductive opened_page :=
| SubmissionOf (url : value)
| SubredditOf (name : value).

(** The page an event opens. *)
Definition page_of (e : event) : option opened_page :=
  match e with
  | EvSubmissionPage url => Some (SubmissionOf url)
  | EvSubredditPage name _ => Some (SubredditOf name)
  | _ => None
  end.

(** The start of the curses session. *)
Definition is_curses_enter (e : event) : bool :=
  match e with EvCursesEnter => true | _ => false end.

(** The attributes lines 59-66 read, in the order they are read. *)
Definition startup_attributes : list string :=
  ["ascii"; "persistent"; "clear_auth"; "log"].

(** The first of [names] that [ns] does not have. *)
Fixpoint first_missing (names : list string) (ns : gmap string value)
  : option string :=
  match names with
  | [] => None
  | name :: rest =>
      match ns !! name with
      | Some _ => first_missing rest ns
      | None => Some name
      end
  end.

(** [n] interrupts in a row. *)
Fixpoint deliver_sigints (env : Env) (n : nat) : M unit :=
  match n with
  | O => ret tt
  | S k => deliver_sigint env ;; deliver_sigints env k
  end.

(** [st] after [n] prompts that were all answered with no. *)
Definition declined (n : nat) (st : State) : State :=
  mkState (trace st ++ replicate n (EvPromptYesNo quit_prompt false))
    (sigint_installed st) (stdscr_bound st) (reddit_bound st) (args st)
    (config_unicode st) (config_persistent st) (token_file st)
    (oauth_refresh_token st) (session_active st)
    (prompts_shown st + n)%nat (nav st).

(** The subreddit page is left by a [KeyboardInterrupt]; the user declines. *)
Definition interrupted_env : Env :=
  mkEnv "1.6" sample_args [] None
    (Ret tt) (Ret tt) (Ret tt) returns (Ret [])
    (mkLoop None (Raise (mkExn KeyboardInterrupt "KeyboardInterrupt" "")))
    (fun _ => false).

(** The user confirms a quit from the handler while the subreddit page is
    shown: [sys.exit()] raises out of [page.loop()]. *)
Definition quit_env : Env :=
  mkEnv "1.6" sample_args [] None
    (Ret tt) (Ret tt) (Ret tt) returns (Ret [])
    (mkLoop None (Raise SystemExit_exn))
    (fun _ => true).

(** A parser that knows no [--log]. *)
Definition no_log_env : Env :=
  mkEnv "1.6" (delete "log" (<["clear_auth" := VBool true]> sample_args)) []
    (Some "t0k3n")
    (Ret tt) (Ret tt) (Ret tt) returns (Ret []) returns
    (fun _ => false).

(** [--ascii] and a log file. *)
Definition ascii_log_env : Env :=
  mkEnv "1.6"
    (<["ascii" := VBool true]> (<["log" := VStr "rtv.log"]> sample_args)) []
    None
    (Ret tt) (Ret tt) (Ret tt) returns (Ret []) returns
    (fun _ => false).

(** A stored token that the service no longer accepts. *)
Definition stale_token_env : Env :=
  mkEnv "1.6" sample_args [] (Some "t0k3n")
    (Ret tt) (Ret tt)
    (Raise (mkExn PRAWException "OAuthInvalidToken" "invalid_token"))
    returns (Ret ["b"; "a"]) returns
    (fun _ => false).

(** The line feed. *)
Definition nl : string := String "010"%char "".

(** [COMMENT_FILE.format(author=..., type=..., content=...)]. *)
Definition COMMENT_FILE_format (author type content : string) : string :=
  nl +:+
  "# Please enter a comment. Lines starting with '#' will be ignored," +:+ nl +:+
  "# and an empty message aborts the comment." +:+ nl +:+
  "#" +:+ nl +:+
  ("# Replying to " +:+ author +:+ "'s " +:+ type) +:+ nl +:+
  content +:+ nl.

(** [COMMENT_EDIT_FILE.format(content=...)]. *)
Definition COMMENT_EDIT_FILE_format (content : string) : string :=
  content +:+ nl +:+
  "# Please enter a comment. Lines starting with '#' will be ignored," +:+ nl +:+
  "# and an empty message aborts the comment." +:+ nl +:+
  "#" +:+ nl +:+
  "# Editing your comment" +:+ nl.

(** [SUBMISSION_FILE.format(content=..., name=...)]. *)
Definition SUBMISSION_FILE_format (content name : string) : string :=
  content +:+ nl +:+
  "# Please enter your submission. Lines starting with '#' will be ignored," +:+ nl +:+
  "# and an empty field aborts the submission." +:+ nl +:+
  "#" +:+ nl +:+
  "# The first line will be interpreted as the title" +:+ nl +:+
  "# The following lines will be interpreted as the content" +:+ nl +:+
  "#" +:+ nl +:+
  ("# Posting to " +:+ name) +:+ nl.

(** [s.split('\n')]. *)
Fixpoint lines (s : string) : list string :=
  match s with
  | EmptyString => [EmptyString]
  | String c s' =>
      if Ascii.eqb c "010"%char then EmptyString :: lines s'
      else match lines s' with
           | l :: ls => String c l :: ls
           | [] => [String c EmptyString]
           end
  end.

(** ['\n' in s]. *)
Fixpoint has_newline (s : string) : bool :=
  match s with
  | EmptyString => false
  | String c s' => Ascii.eqb c "010"%char || has_newline s'
  end.

(** [l.startswith('#')]. *)
Definition is_comment_line (l : string) : bool :=
  match l with
  | String "#"%char _ => true
  | _ => false
  end.

(** * Properties *)

(** ** The configuration file and the command line *)

Section FillFromConfig.
Implicit Types (items : list (string * value)) (ns : gmap string value).

Lemma is_None_true v : is_None v = true ↔ v = VNone.
Proof. destruct v; simpl; split; congruence. Qed.

Lemma fill_from_config_keeps items : ∀ ns key v,
  ns !! key = Some v → v ≠ VNone →
  fill_from_config items ns !! key = Some v.
Proof.
  induction items as [|[k val] rest IH]; intros ns key v Hv Hne; [done|].
  simpl. apply IH; [|done].
  destruct (is_None (getattr_None ns k)) eqn:Hk; [|done].
  destruct (decide (k = key)) as [->|Hkk].
  - apply is_None_true in Hk. unfold getattr_None in Hk.
    rewrite Hv in Hk. simpl in Hk. congruence.
  - by rewrite lookup_insert_ne.
Qed.

Lemma fill_from_config_other items : ∀ ns key,
  key ∉ items.*1 → fill_from_config items ns !! key = ns !! key.
Proof.
  induction items as [|[k val] rest IH]; intros ns key Hnot; [done|].
  simpl in *. apply not_elem_of_cons in Hnot as [Hk Hrest].
  rewrite IH by done.
  destruct (is_None (getattr_None ns k)); [|done].
  by rewrite lookup_insert_ne.
Qed.

Lemma fill_from_config_changed items : ∀ ns key,
  fill_from_config items ns !! key ≠ ns !! key →
  getattr_None ns key = VNone ∧
  ∃ val, (key, val) ∈ items ∧ fill_from_config items ns !! key = Some val.
Proof.
  induction items as [|[k val] rest IH]; intros ns key Hch; [done|].
  simpl in *.
  destruct (is_None (getattr_None ns k)) eqn:Hk.
  - apply is_None_true in Hk.
    destruct (decide (fill_from_config rest (<[k:=val]> ns) !! key
                      = <[k:=val]> ns !! key)) as [Heq|Hne].
    + destruct (decide (k = key)) as [->|Hkk].
      * split; [done|]. exists val. split; [left|].
        by rewrite Heq, lookup_insert_eq.
      * rewrite Heq, lookup_insert_ne in Hch by done. done.
    + destruct (IH _ _ Hne) as [Hnone (val' & Hin & Hval')].
      split.
      * destruct (decide (k = key)) as [->|Hkk]; [done|].
        unfold getattr_None in *. by rewrite lookup_insert_ne in Hnone.
      * exists val'. split; [by right|done].
  - destruct (IH _ _ Hch) as [Hnone (val' & Hin & Hval')].
    split; [done|]. exists val'. split; [by right|done].
Qed.

End FillFromConfig.

(** C10: a key of the configuration file reaches the arguments only where
    the parsed argument is [None] (or was never set), and then with a value
    the file gives for it; an argument that the command line gave a value
    other than [None] keeps it, whatever the file says. *)
Theorem config_file_fills_only_None_arguments (env : Env) (key : string) :
  let given := parsed_args env in
  let merged := fill_from_config (local_config env) given in
  (∀ v, given !! key = Some v → v ≠ VNone → merged !! key = Some v) ∧
  (merged !! key ≠ given !! key →
     getattr_None given key = VNone ∧
     ∃ val, (key, val) ∈ local_config env ∧ merged !! key = Some val).
Proof.
  cbv zeta. split.
  - intros v. apply fill_from_config_keeps.
  - apply fill_from_config_changed.
Qed.

Lemma config_file_fills_only_None_arguments_witness :
  parsed_args sample_env !! "subreddit" = Some VNone ∧
  fill_from_config (local_config sample_env) (parsed_args sample_env)
    !! "subreddit" = Some (VStr "python") ∧
  fill_from_config [("ascii", VBool true)] (parsed_args sample_env)
    !! "ascii" = Some (VBool false).
Proof.
  split; [vm_compute; reflexivity|]. split.
  - destruct (config_file_fills_only_None_arguments sample_env "subreddit")
      as (_ & Hchanged).
    destruct Hchanged as (_ & val & Hin & Hval);
      [vm_compute; discriminate|].
    apply list_elem_of_singleton in Hin. by simplify_eq.
  - destruct (config_file_fills_only_None_arguments
                (mkEnv "1.6" sample_args [("ascii", VBool true)] None
                   (Ret tt) (Ret tt) (Ret tt) returns (Ret []) returns
                   (fun _ => false)) "ascii")
      as (Hkept & _).
    apply Hkept; [vm_compute; reflexivity|discriminate].
Defined.

(** ** Running the machine *)

Ltac machine :=
  cbv beta iota zeta delta
    [session with_curses_session try_except_finally session_body connect
     entered browse load_subscription_names is_oauth_session with_LoadScreen
     run_loop OAuthTool oauth_authorize except_clauses cleanup call attr
     sigint_handler deliver_sigint default_int_handler
     bind ret raise get modify emit when prompt_yesno sys_exit
     add_event set_sigint_installed set_stdscr_bound set_reddit_bound
     set_args set_config_unicode set_config_persistent set_token_file
     set_oauth_refresh_token set_session_active set_prompts_shown
     trace sigint_installed stdscr_bound reddit_bound args config_unicode
     config_persistent token_file oauth_refresh_token session_active
     prompts_shown nav fst snd from_option id].

Ltac break_match :=
  match goal with
  | |- context [match ?x with _ => _ end] =>
      lazymatch x with
      | context [match _ with _ => _ end] => fail
      | _ => destruct x eqn:?
      end
  end.

Lemma startup_inv env st0 :
  startup env (initial_state env) = (Ret tt, st0) →
  trace st0 = startup_events env ∧
  sigint_installed st0 = true ∧ stdscr_bound st0 = false ∧
  reddit_bound st0 = false ∧ session_active st0 = false ∧
  args st0 = merged_args env ∧
  token_file st0 =
    (if truthy (getattr_None (merged_args env) "clear_auth") then None
     else persisted_token env) ∧
  oauth_refresh_token st0 = VNone ∧
  prompts_shown st0 = O ∧ nav st0 = None.
Proof.
  unfold startup, startup_events, getattr_None, merged_args, bind, attr, when,
    emit, modify, ret, clear_refresh_token. simpl.
  intros H.
  destruct (fill_from_config _ _ !! "ascii") as [a|] eqn:Ha; [|done].
  destruct (truthy a); simpl in H;
  destruct (fill_from_config _ _ !! "persistent") as [p|] eqn:Hp; try done;
  destruct (truthy p); simpl in H;
  destruct (fill_from_config _ _ !! "clear_auth") as [c|] eqn:Hc; try done;
  destruct (truthy c) eqn:Htc; simpl in H;
  destruct (fill_from_config _ _ !! "log") as [l|] eqn:Hl; try done;
  simpl; destruct (truthy l) eqn:Htl; simpl in H; simplify_eq; simpl.
  all: rewrite ?Htc, ?Htl.
  all: repeat split; reflexivity.
Qed.

Lemma startup_events_quiet env :
  Forall (λ e, is_service_event e = false ∧ is_close_event e = false ∧
               is_prompt_event e = false)
    (startup_events env).
Proof.
  unfold startup_events.
  destruct (truthy (getattr_None _ "clear_auth"));
    destruct (truthy (getattr_None _ "log")); simpl;
    repeat constructor.
Qed.

Lemma startup_events_checks env :
  existsb is_authorize_event (startup_events env) = false ∧
  existsb is_fetch_event (startup_events env) = false ∧
  forallb without_subscriptions (startup_events env) = true.
Proof.
  unfold startup_events.
  by destruct (truthy (getattr_None _ "clear_auth")),
    (truthy (getattr_None _ "log")).
Qed.

Lemma until_app stop l r :
  existsb stop l = false → until stop (l ++ r) = l ++ until stop r.
Proof.
  induction l as [|e l IH]; simpl; [done|].
  destruct (stop e); simpl; [done|]. intros H. by rewrite IH.
Qed.

Lemma main_eq env st0 :
  startup env (initial_state env) = (Ret tt, st0) →
  run env = session env st0.
Proof. intros H. unfold run, main, bind. by rewrite H. Qed.

Lemma session_eq env st :
  session env st =
  let (r, st') :=
    try_except_finally (session_body env) (except_clauses env) cleanup
      (entered st) in
  (r, add_event EvCursesExit st').
Proof. reflexivity. Qed.

(** When the constructor raises, the body stops there and [reddit] stays
    unassigned. *)
Lemma session_body_ctor_raises env st e :
  reddit_ctor env = Raise e →
  session_body env st =
    (Raise e,
     add_event (EvRedditCtor (AGENT_format (version env)))
       (add_event (EvPrint "Connecting...") st)).
Proof. intros H. machine. by rewrite H. Qed.

(** [connect] leaves the arguments alone. *)
Lemma connect_args env st : args (snd (connect env st)) = args st.
Proof.
  destruct st. machine. repeat (break_match; machine). all: reflexivity.
Qed.

(** The session only ever adds to the trace, and starts by entering
    curses. *)
Lemma session_trace env st :
  ∃ evs, trace (snd (session env st)) = trace st ++ EvCursesEnter :: evs.
Proof.
  destruct st. machine. repeat (break_match; machine).
  all: eexists; rewrite <- ?app_assoc; simpl; reflexivity.
Qed.

(** ** The interrupt handler *)

(** Between line 38 and line 71 the handler is installed and [stdscr] is not
    bound: the handler raises and shows nothing. *)
Lemma sigint_before_curses env st :
  sigint_installed st = true → stdscr_bound st = false →
  deliver_sigint env st = (Raise NameError_stdscr, st).
Proof.
  intros Hi Hb. destruct st as [tr si sb rb a cu cp tf ort sa ps nv].
  cbn [sigint_installed stdscr_bound] in *. subst.
  reflexivity.
Qed.

(** C1: a SIGINT that is delivered after line 38 has installed the handler
    and before line 71 has bound [stdscr] does not bring up the prompt: the
    handler raises [NameError] and adds nothing to the trace. *)
Theorem sigint_before_curses_session_raises_NameError :
  let st := before_session sample_env in
  sigint_installed st = true ∧
  deliver_sigint sample_env st = (Raise NameError_stdscr, st) ∧
  sigint_events sample_env st = [].
Proof. vm_compute. done. Qed.

(** C7, as amended: once the curses session is open, the installed handler
    itself asks the question: it adds the prompt (drawn and answered inside
    the handler) to the trace, raises [SystemExit] on yes, and on no returns
    with the navigation state, the arguments, the token, the session and the
    binding of [reddit] as they were. *)
Theorem sigint_handler_prompts_in_the_handler env st :
  sigint_installed st = true →
  stdscr_bound st = true →
  let b := answers env (prompts_shown st) in
  let st' := snd (deliver_sigint env st) in
  fst (deliver_sigint env st) = (if b then Raise SystemExit_exn else Ret tt) ∧
  trace st' =
    trace st ++ EvPromptYesNo quit_prompt b :: (if b then [EvSysExit] else []) ∧
  nav st' = nav st ∧ args st' = args st ∧ token_file st' = token_file st ∧
  session_active st' = session_active st ∧
  reddit_bound st' = reddit_bound st.
Proof.
  intros Hi Hb. destruct st as [tr si sb rb a cu cp tf ort sa ps nv].
  cbn [sigint_installed stdscr_bound] in *. subst.
  machine. destruct (answers env _); machine; rewrite <- ?app_assoc; done.
Qed.

Lemma sigint_handler_prompts_in_the_handler_witness :
  let st := entered (before_session sample_env) in
  sigint_installed st = true ∧ stdscr_bound st = true ∧
  trace (snd (deliver_sigint sample_env st)) =
    trace st ++ [EvPromptYesNo quit_prompt false].
Proof.
  cbv zeta.
  assert (sigint_installed (entered (before_session sample_env)) = true)
    as Hi by (vm_compute; reflexivity).
  assert (stdscr_bound (entered (before_session sample_env)) = true)
    as Hb by (vm_compute; reflexivity).
  split; [exact Hi|]. split; [exact Hb|].
  exact (proj1 (proj2
    (sigint_handler_prompts_in_the_handler sample_env _ Hi Hb))).
Defined.

(** Counterexample to C7 as it is stated: in the open session the handler
    does render. *)
Lemma handler_renders_counterexample :
  ¬ handler_never_renders sample_env (entered (before_session sample_env)).
Proof. vm_compute. discriminate. Qed.

(** ** The [try] statement *)

(** C8: when the constructor of the client raises, whatever it raises, the
    [finally] block reads the unassigned [reddit] and raises
    [UnboundLocalError] itself; neither [close] call is made in the run. *)
Theorem cleanup_raises_when_client_unbound env st0 e :
  startup env (initial_state env) = (Ret tt, st0) →
  reddit_ctor env = Raise e →
  ∃ st', run env = (Raise UnboundLocalError_reddit, st') ∧
         reddit_bound st' = false ∧
         Forall (λ ev, is_close_event ev = false) (trace st').
Proof.
  intros H0 Hc. rewrite (main_eq _ _ H0), session_eq.
  destruct (startup_inv _ _ H0) as (Htr & _ & _ & Hrb & _).
  pose proof (startup_events_quiet env) as Hq. rewrite <- Htr in Hq.
  clear H0 Htr.
  unfold try_except_finally. rewrite (session_body_ctor_raises _ _ _ Hc).
  unfold except_clauses.
  destruct st0; simpl in *; subst.
  destruct (is_service_error e); [|destruct (is_keyboard_interrupt e)].
  all: machine.
  all: repeat break_match; simplify_eq.
  all: eexists; split; [reflexivity|]; machine; split; [done|].
  all: rewrite ?Forall_app; repeat split; try (repeat constructor; fail).
  all: eapply Forall_impl; [exact Hq|]; by intros ? (_ & ? & _).
Qed.

Lemma cleanup_raises_when_client_unbound_witness :
  startup ctor_fails_env (initial_state ctor_fails_env)
    = (Ret tt, before_session ctor_fails_env) ∧
  reddit_ctor ctor_fails_env = Raise ConnectionError ∧
  ∃ st', run ctor_fails_env = (Raise UnboundLocalError_reddit, st') ∧
         reddit_bound st' = false ∧
         Forall (λ ev, is_close_event ev = false) (trace st').
Proof.
  assert (startup ctor_fails_env (initial_state ctor_fails_env)
          = (Ret tt, before_session ctor_fails_env)) as H0
    by (vm_compute; reflexivity).
  assert (reddit_ctor ctor_fails_env = Raise ConnectionError) as Hc
    by reflexivity.
  exact (conj H0 (conj Hc
    (cleanup_raises_when_client_unbound ctor_fails_env _ _ H0 Hc))).
Defined.

(** C2: the run in which [praw.Reddit(...)] raises a connection error.  The
    error is caught, logged and printed, then the [finally] block raises on
    the unassigned [reddit]: no [close] call is in the trace. *)
Theorem connection_error_skips_both_closes :
  fst (run ctor_fails_env) = Raise UnboundLocalError_reddit ∧
  drop (length (startup_events ctor_fails_env)) (trace (snd (run ctor_fails_env))) =
    [EvCursesEnter; EvPrint "Connecting...";
     EvRedditCtor (AGENT_format "1.6");
     EvLoggerException ConnectionError;
     EvPrint "ConnectionError: Connection aborted.";
     EvCursesExit] ∧
  existsb is_close_event (trace (snd (run ctor_fails_env))) = false.
Proof. vm_compute. done. Qed.

(** Once the constructor has returned, every way out of the [try] statement
    runs both [close] calls, last of all but for the end of the curses
    session, and the statement raises only what the body or a handler
    raised. *)
Lemma session_closes_when_client_bound env st :
  reddit_ctor env = Ret tt →
  ∃ mid,
    trace (snd (session env st)) =
      trace st ++ mid ++ [EvHttpClose; EvIOLoopClose; EvCursesExit] ∧
    Forall (λ e, is_close_event e = false) mid ∧
    reddit_bound (snd (session env st)) = true.
Proof.
  intros Hc. destruct st. machine. rewrite Hc. machine.
  repeat (break_match; machine).
  all: repeat rewrite <- app_assoc; simpl.
  all: lazymatch goal with
       | |- ∃ mid, _ ++ ?l = _ ∧ _ =>
           exists (take (length l - 3) l)
       end.
  all: split; [reflexivity|]; split; [|reflexivity].
  all: simpl; repeat constructor.
Qed.

(** C4: an error of one of the three classes that leaves the body of the
    [try], from a page loop or from any other call in it, is handed to the
    logger and then printed as [type name: message], once, right where the
    body stopped; after that only the [finally] block and the end of the
    curses session follow, and the error does not travel further. *)
Theorem service_error_is_logged_and_printed env st0 st1 e :
  startup env (initial_state env) = (Ret tt, st0) →
  session_body env (entered st0) = (Raise e, st1) →
  is_service_error e = true →
  fst (run env) =
    (if reddit_bound st1 then Ret tt else Raise UnboundLocalError_reddit) ∧
  trace (snd (run env)) =
    trace st1
    ++ [EvLoggerException e; EvPrint (exn_name e +:+ ": " +:+ exn_msg e)]
    ++ (if reddit_bound st1 then [EvHttpClose; EvIOLoopClose] else [])
    ++ [EvCursesExit].
Proof.
  intros H0 H1 He. rewrite (main_eq _ _ H0), session_eq.
  unfold try_except_finally. rewrite H1.
  unfold except_clauses. rewrite He.
  destruct st1 as [tr ? ? rb ? ? ? ? ? ? ? ?]. machine.
  destruct rb; machine; rewrite <- ?app_assoc; done.
Qed.

Lemma service_error_is_logged_and_printed_witness :
  let env := loop_fails_env in
  let st1 := snd (session_body env (entered (before_session env))) in
  startup env (initial_state env) = (Ret tt, before_session env) ∧
  session_body env (entered (before_session env))
    = (Raise ConnectionError, st1) ∧
  fst (run env) = Ret tt ∧
  trace (snd (run env)) =
    trace st1
    ++ [EvLoggerException ConnectionError;
        EvPrint "ConnectionError: Connection aborted.";
        EvHttpClose; EvIOLoopClose; EvCursesExit].
Proof.
  cbv zeta.
  assert (startup loop_fails_env (initial_state loop_fails_env)
          = (Ret tt, before_session loop_fails_env)) as H0
    by (vm_compute; reflexivity).
  assert (session_body loop_fails_env (entered (before_session loop_fails_env))
          = (Raise ConnectionError,
             snd (session_body loop_fails_env
                    (entered (before_session loop_fails_env))))) as H1
    by (vm_compute; reflexivity).
  split; [exact H0|]. split; [exact H1|].
  exact (service_error_is_logged_and_printed loop_fails_env _ _ _ H0 H1
           eq_refl).
Defined.

(** ** Start-up: authorization, the direct link, [--clear-auth] *)

(** C9, as amended: with a link on the command line, once the session is
    connected and the loop of the submission page has returned, the run
    goes on in the same curses session: the next thing it does is ask
    whether the session is authorized.  If it is not, the subreddit page is
    opened, for the requested subreddit or, when none is requested, for
    [front].  If it is, the subscriptions are fetched inside the loading
    screen, and the subreddit page is opened with their sorted names when
    the fetch returns; when the fetch raises, no subreddit page is opened. *)
Theorem link_falls_through_to_subreddit_page env st0 st1 url sub :
  startup env (initial_state env) = (Ret tt, st0) →
  connect env (entered st0) = (Ret tt, st1) →
  merged_args env !! "link" = Some url →
  truthy url = true →
  merged_args env !! "subreddit" = Some sub →
  loop_outcome (submission_loop env) = Ret tt →
  let auth := default (session_active st1) (loop_session (submission_loop env)) in
  let name := if truthy sub then sub else VStr "front" in
  let asked := trace st1 ++ [EvSubmissionPage url; EvIsOAuthSession auth] in
  let loading := [EvLoadScreenEnter "Loading subreddits"; EvGetMySubreddits;
                  EvLoadScreenExit] in
  if auth then
    match get_my_subreddits env with
    | Ret subs =>
        ∃ post, trace (snd (run env)) =
                  asked ++ loading ++ EvSubredditPage name (sorted subs) :: post
    | Raise _ =>
        ∃ post, trace (snd (run env)) = asked ++ loading ++ post ∧
                existsb is_subreddit_page_event post = false
    end
  else
    ∃ post, trace (snd (run env)) = asked ++ EvSubredditPage name [] :: post.
Proof.
  intros H0 H1 Hlink Hurl Hsub Hloop.
  rewrite (main_eq _ _ H0), session_eq.
  pose proof (connect_args env (entered st0)) as Ha. rewrite H1 in Ha.
  simpl in Ha.
  destruct (startup_inv _ _ H0) as (_ & _ & _ & _ & _ & Hargs & _).
  assert (args st1 = merged_args env) as Ha1
    by (rewrite Ha; destruct st0; exact Hargs).
  clear Ha Hargs H0.
  unfold try_except_finally, session_body, bind. rewrite H1.
  destruct st1 as [tr ? ? rb a ? ? ? ? sa ? ?]. simpl in Ha1. subst a.
  unfold browse, py_or. machine.
  rewrite Hlink, Hurl, Hloop. machine.
  destruct (loop_session (submission_loop env)) as [[]|]; machine;
    rewrite Hsub; machine; [| |destruct sa; machine].
  all: repeat (break_match; machine).
  all: eexists; rewrite <- ?app_assoc; simpl; try split; reflexivity.
Qed.

Lemma link_falls_through_to_subreddit_page_witness :
  let env := link_only_env in
  let st1 := snd (connect env (entered (before_session env))) in
  ∃ post,
    trace (snd (run env)) =
      (trace st1
       ++ [EvSubmissionPage (VStr "https://redd.it/3ab");
           EvIsOAuthSession false])
      ++ EvSubredditPage (VStr "front") [] :: post.
Proof.
  cbv zeta.
  assert (startup link_only_env (initial_state link_only_env)
          = (Ret tt, before_session link_only_env)) as H0
    by (vm_compute; reflexivity).
  assert (connect link_only_env (entered (before_session link_only_env))
          = (Ret tt,
             snd (connect link_only_env
                    (entered (before_session link_only_env)))))
    as H1 by (vm_compute; reflexivity).
  assert (merged_args link_only_env !! "link"
          = Some (VStr "https://redd.it/3ab"))
    as Hl by (vm_compute; reflexivity).
  assert (merged_args link_only_env !! "subreddit" = Some VNone)
    as Hs by (vm_compute; reflexivity).
  exact (link_falls_through_to_subreddit_page link_only_env _ _ _ _
           H0 H1 Hl eq_refl Hs eq_refl).
Defined.

(** Counterexample to C9 as it is stated: the link is given, the loop of the
    submission page returns, the session is authorized, and the fetch of
    the subscriptions raises: no subreddit page is opened. *)
Lemma fetch_failure_counterexample : ¬ reaches_subreddit_page fetch_fails_env.
Proof.
  intros H. specialize (H eq_refl). vm_compute in H. discriminate.
Qed.

(** The session of that run, event by event. *)
Example fetch_failure_trace :
  drop (length (startup_events fetch_fails_env))
    (trace (snd (run fetch_fails_env))) =
  [EvCursesEnter; EvPrint "Connecting...";
   EvRedditCtor (AGENT_format "1.6"); EvOAuthCtor; EvAuthorize;
   EvSubmissionPage (VStr "https://redd.it/3ab"); EvIsOAuthSession true;
   EvLoadScreenEnter "Loading subreddits"; EvGetMySubreddits;
   EvLoadScreenExit; EvLoggerException ConnectionError;
   EvPrint "ConnectionError: Connection aborted.";
   EvHttpClose; EvIOLoopClose; EvCursesExit].
Proof. vm_compute. reflexivity. Qed.

(** C5: when [args.clear_auth] is true, the stored token is gone when the
    [with] statement is reached; in the trace the deletion stands before the
    set-up of logging and the start of the curses session, with no call to
    the service ahead of it; and the connection that follows finds no token,
    does not authorize and leaves the session unauthenticated. *)
Theorem clear_auth_forgets_token_before_connecting env st0 :
  startup env (initial_state env) = (Ret tt, st0) →
  truthy (getattr_None (merged_args env) "clear_auth") = true →
  token_file st0 = None ∧
  (∃ pre logging post,
     trace (snd (run env)) =
       pre ++ EvClearRefreshToken :: logging :: EvCursesEnter :: post ∧
     Forall (λ e, is_service_event e = false) pre ∧
     is_service_event logging = false) ∧
  (let st1 := snd (connect env (entered st0)) in
   token_file st1 = None ∧ session_active st1 = false ∧
   existsb is_authorize_event (trace st1) = false).
Proof.
  intros H0 Hclear.
  destruct (startup_inv _ _ H0) as
    (Htr & _ & _ & _ & Hsa & _ & Htok & Hort & _).
  rewrite Hclear in Htok. split; [exact Htok|]. split.
  - rewrite (main_eq _ _ H0).
    destruct (session_trace env st0) as [evs ->].
    rewrite Htr. unfold startup_events. rewrite Hclear.
    eexists (take 6 (startup_events env)), _, evs. split; [|split].
    + simpl. reflexivity.
    + repeat constructor.
    + by destruct (truthy (getattr_None _ "log")).
  - assert (existsb is_authorize_event (trace st0) = false) as Hno.
    { rewrite Htr. unfold startup_events. rewrite Hclear.
      by destruct (truthy (getattr_None _ "log")). }
    clear H0 Hclear Htr.
    destruct st0 as [tr ? ? ? ? ? ? tf ort sa ? ?].
    cbn [token_file session_active oauth_refresh_token trace] in *. subst.
    machine. repeat (break_match; machine).
    all: rewrite ?existsb_app, ?Hno; done.
Qed.

Lemma clear_auth_forgets_token_before_connecting_witness :
  persisted_token clear_auth_env = Some "t0k3n" ∧
  token_file (before_session clear_auth_env) = None ∧
  session_active
    (snd (connect clear_auth_env (entered (before_session clear_auth_env))))
    = false.
Proof.
  assert (startup clear_auth_env (initial_state clear_auth_env)
          = (Ret tt, before_session clear_auth_env)) as H0
    by (vm_compute; reflexivity).
  assert (truthy (getattr_None (merged_args clear_auth_env) "clear_auth")
          = true) as Hc by (vm_compute; reflexivity).
  destruct (clear_auth_forgets_token_before_connecting clear_auth_env _ H0 Hc)
    as (Ht & _ & _ & Hs & _).
  split; [reflexivity|]. split; [exact Ht|exact Hs].
Defined.

(** C3, as amended: in a run in which the client and the OAuth tool are
    constructed, [oauth.authorize()] is called exactly when the token the
    tool found is a non-empty string; without such a token, and unless the
    user logs in on the page of a direct link, no subscriptions are fetched
    and the subreddit page opens with an empty list; and when subscriptions
    are fetched in a run with a token, [authorize] was called, and had
    returned, before the fetch. *)
Theorem authorization_at_startup env st0 :
  startup env (initial_state env) = (Ret tt, st0) →
  reddit_ctor env = Ret tt →
  oauth_ctor env = Ret tt →
  let tok := value_of_token (token_file st0) in
  let tr := trace (snd (run env)) in
  existsb is_authorize_event tr = truthy tok ∧
  (truthy tok = false → logs_in_on_link_page env = false →
     existsb is_fetch_event tr = false ∧
     forallb without_subscriptions tr = true) ∧
  (existsb is_fetch_event tr = true → truthy tok = true →
     authorize env = Ret tt ∧
     existsb is_authorize_event (until is_fetch_event tr) = true).
Proof.
  intros H0 Hc Ho. rewrite (main_eq _ _ H0).
  destruct (startup_inv _ _ H0) as
    (Htr & _ & _ & _ & Hsa & Hargs & _).
  destruct (startup_events_checks env) as (Ha & Hf & Hw).
  rewrite <- Htr in Ha, Hf, Hw. unfold logs_in_on_link_page, getattr_None.
  rewrite <- Hargs. clear H0 Htr Hargs.
  destruct st0 as [tr0 ? ? ? a ? ? tf ? sa ? ?].
  cbn [trace session_active args token_file] in *. subst sa.
  machine. rewrite Hc, Ho. machine.
  repeat (break_match; machine).
  all: rewrite <- ?app_assoc; simpl app.
  all: rewrite ?(until_app _ _ _ Hf), ?existsb_app, ?forallb_app, ?Ha, ?Hf, ?Hw.
  all: simpl; repeat split; intros; simplify_eq; try done.
  all: by repeat match goal with x : () |- _ => destruct x end.
Qed.

Lemma authorization_at_startup_witness :
  existsb is_authorize_event (trace (snd (run token_env))) = true ∧
  existsb is_authorize_event
    (until is_fetch_event (trace (snd (run token_env)))) = true.
Proof.
  assert (startup token_env (initial_state token_env)
          = (Ret tt, before_session token_env)) as H0
    by (vm_compute; reflexivity).
  destruct (authorization_at_startup token_env _ H0 eq_refl eq_refl)
    as (Ha & _ & Hb).
  split; [exact Ha|]. apply Hb; vm_compute; reflexivity.
Defined.

(** Counterexample to C3 as it is stated: no token is stored, the user logs
    in on the page of the direct link, and the subscriptions are fetched. *)
Lemma login_on_link_page_counterexample :
  ¬ no_token_no_subscriptions login_on_link_env.
Proof.
  intros H. destruct (H eq_refl) as [Hf _]. vm_compute in Hf. discriminate.
Qed.

(** The session of that run, event by event. *)
Example login_on_link_page_trace :
  drop (length (startup_events login_on_link_env))
    (trace (snd (run login_on_link_env))) =
  [EvCursesEnter; EvPrint "Connecting...";
   EvRedditCtor (AGENT_format "1.6"); EvOAuthCtor;
   EvSubmissionPage (VStr "https://redd.it/3ab"); EvIsOAuthSession true;
   EvLoadScreenEnter "Loading subreddits"; EvGetMySubreddits;
   EvLoadScreenExit; EvSubredditPage (VStr "front") ["a"; "b"];
   EvHttpClose; EvIOLoopClose; EvCursesExit].
Proof. vm_compute. reflexivity. Qed.

(** ** The cursor and scroll model *)

Lemma ContentNode_forall_ind (P : ContentNode → Prop) :
  (∀ ident ls fo ch, Forall P ch → P (Node ident ls fo ch)) →
  ∀ n, P n.
Proof.
  intros step. fix IH 1. intros [ident ls fo ch]. apply step.
  induction ch as [|c cs IHcs]; constructor; [apply IH|exact IHcs].
Qed.

Lemma flatten_pos n : (0 < length (flatten n))%nat.
Proof. destruct n; simpl; lia. Qed.

Lemma rewrite_spec_children op ch :
  Forall (rewrite_spec op) ch →
  ∀ j, (j < length (concat (map flatten ch)))%nat →
    let go_node :=
      (fix go (j : nat) (l : list ContentNode) : option ContentNode :=
         match l with
         | [] => None
         | c :: cs =>
             let k := length (flatten c) in
             if (j <? k)%nat then node_in j c else go (j - k)%nat cs
         end) in
    let go_upd :=
      (fix go (j : nat) (l : list ContentNode) : list ContentNode :=
         match l with
         | [] => []
         | c :: cs =>
             let k := length (flatten c) in
             if (j <? k)%nat then update_in op j c :: cs
             else c :: go (j - k)%nat cs
         end) in
    ∃ n, go_node j ch = Some n ∧
         go_node j (go_upd j ch) = Some (op n) ∧
         (j + length (flatten n) ≤ length (concat (map flatten ch)))%nat ∧
         (length (concat (map flatten (go_upd j ch))) + length (flatten n)
          = length (concat (map flatten ch)) + length (flatten (op n)))%nat.
Proof.
  induction 1 as [|c cs Hc _ IH]; intros j Hj; [simpl in Hj; lia|].
  simpl in Hj. rewrite length_app in Hj. cbv zeta in *. simpl.
  destruct (Nat.ltb_spec j (length (flatten c))) as [Hlt|Hge].
  - destruct (Hc j Hlt) as (n & Hn & Hn' & Hle & Hlen).
    exists n. simpl. rewrite !length_app.
    assert (j < length (flatten (update_in op j c)))%nat as Hlt'.
    { pose proof (flatten_pos (op n)). lia. }
    apply Nat.ltb_lt in Hlt'. rewrite Hlt'.
    repeat split; [done|done|lia|lia].
  - destruct (IH (j - length (flatten c))%nat) as (n & Hn & Hn' & Hle & Hlen);
      [lia|].
    exists n. simpl. rewrite !length_app.
    apply Nat.ltb_ge in Hge. rewrite Hge.
    repeat split; [done|done|lia|lia].
Qed.

Lemma update_in_spec op n : rewrite_spec op n.
Proof.
  induction n as [ident ls fo ch IH] using ContentNode_forall_ind.
  intros [|j] Hi.
  - exists (Node ident ls fo ch). simpl.
    destruct (op (Node ident ls fo ch)) as [ident' ls' fo' ch'] eqn:Hop.
    simpl. repeat split; [lia|lia].
  - destruct fo; [simpl in Hi; lia|].
    simpl in Hi. apply Nat.succ_lt_mono in Hi.
    destruct (rewrite_spec_children op ch IH j Hi)
      as (n & Hn & Hn' & Hle & Hlen).
    exists n. simpl. repeat split; [done|done|lia|exact (f_equal S Hlen)].
Qed.

Lemma update_at_spec op : ∀ p i,
  (i < length (flatten_page p))%nat →
  ∃ n, node_at i p = Some n ∧
       node_at i (update_at op i p) = Some (op n) ∧
       (i + length (flatten n) ≤ length (flatten_page p))%nat ∧
       (length (flatten_page (update_at op i p)) + length (flatten n)
        = length (flatten_page p) + length (flatten (op n)))%nat.
Proof.
  unfold flatten_page.
  induction p as [|c cs IH]; intros i Hi; [simpl in Hi; lia|].
  simpl in Hi. rewrite length_app in Hi. simpl.
  destruct (Nat.ltb_spec i (length (flatten c))) as [Hlt|Hge].
  - destruct (update_in_spec op c i Hlt) as (n & Hn & Hn' & Hle & Hlen).
    exists n. simpl. rewrite !length_app.
    assert (i < length (flatten (update_in op i c)))%nat as Hlt'.
    { pose proof (flatten_pos (op n)). lia. }
    apply Nat.ltb_lt in Hlt'. rewrite Hlt'.
    repeat split; [done|done|lia|lia].
  - destruct (IH (i - length (flatten c))%nat) as (n & Hn & Hn' & Hle & Hlen);
      [lia|].
    exists n. simpl. rewrite !length_app.
    apply Nat.ltb_ge in Hge. rewrite Hge.
    repeat split; [done|done|lia|lia].
Qed.

Lemma update_at_beyond op : ∀ p i,
  (length (flatten_page p) ≤ i)%nat →
  update_at op i p = p ∧ node_at i p = None.
Proof.
  unfold flatten_page.
  induction p as [|c cs IH]; intros i Hi; [done|].
  simpl in Hi. rewrite length_app in Hi. simpl.
  destruct (Nat.ltb_spec i (length (flatten c))) as [Hlt|Hge]; [lia|].
  destruct (IH (i - length (flatten c))%nat) as [-> ->]; [lia|done].
Qed.

Lemma recomputeScroll_in_viewport s :
  0 < viewportHeight s → in_viewport (recomputeScroll s).
Proof.
  unfold in_viewport, recomputeScroll. simpl. intros Hh.
  destruct (Z.ltb_spec (selectedIndex s) (scrollOffset s));
    [lia|].
  destruct (Z.ltb_spec (scrollOffset s + viewportHeight s - 1)
              (selectedIndex s)); lia.
Qed.

Lemma recomputeScroll_nav_ok s : nav_ok s → nav_ok (recomputeScroll s).
Proof. by intros H. Qed.

Lemma rows_pos (s : NavigationState) : visibleRows s ≠ [] ↔ 0 < rows s.
Proof.
  unfold rows. destruct (visibleRows s); simpl; split; (done || lia).
Qed.

Lemma clamp_nav_ok s x off :
  0 < viewportHeight s →
  nav_ok (mkNav (page s) (clamp 0 (rows s - 1) x) off (viewportHeight s)).
Proof.
  intros Hh. unfold nav_ok, clamp, rows, visibleRows. simpl. lia.
Qed.

Lemma loadPage_nav_ok p h : 0 < h → nav_ok (loadPage p h).
Proof. intros Hh. unfold nav_ok, loadPage. simpl. lia. Qed.

(** A rewrite of the node of any row keeps the selection in range. *)
Lemma rewrite_row_nav_ok op i s : nav_ok s → nav_ok (rewrite_row op i s).
Proof.
  intros (Hh & H0 & Hlt & Hemp).
  unfold nav_ok, rewrite_row, rows, visibleRows, span, follow in *. simpl.
  destruct (Nat.lt_ge_cases i (length (flatten_page (page s)))) as [Hi|Hi].
  - destruct (update_at_spec op (page s) i Hi) as (n & -> & -> & Hle & Hlen).
    pose proof (flatten_pos n). pose proof (flatten_pos (op n)).
    destruct (Z.leb_spec (selectedIndex s) (Z.of_nat i));
      [|destruct (Z.ltb_spec (selectedIndex s)
                    (Z.of_nat i + Z.of_nat (length (flatten n))));
        [destruct (Z.ltb_spec (selectedIndex s)
                    (Z.of_nat i + Z.of_nat (length (flatten (op n)))))|]];
      lia.
  - destruct (update_at_beyond op (page s) i Hi) as [-> ->].
    destruct (Z.leb_spec (selectedIndex s) (Z.of_nat i));
      [|destruct (Z.ltb_spec (selectedIndex s) (Z.of_nat i + 0))];
      repeat split; try lia.
    all: intros; try (apply Hlt; lia); try (apply Hemp; lia); lia.
Qed.

Lemma command_nav_ok c s :
  nav_ok s →
  match c with Resize h => (0 < h)%Z | _ => True end →
  nav_ok
    match c with
    | MoveSelection d => moveSelection d s
    | PageDown => pageDown s
    | PageUp => pageUp s
    | ToggleFold i => toggleFold i s
    | LoadMore i f => loadMore i f s
    | Resize h => resize h s
    | LoadPage p => loadPage p (viewportHeight s)
    end.
Proof.
  intros Hok Hc. pose proof Hok as (Hh & H0 & Hlt & Hemp).
  destruct c as [d| | |i|i f|h|p].
  - by apply clamp_nav_ok.
  - by apply clamp_nav_ok.
  - by apply clamp_nav_ok.
  - by apply rewrite_row_nav_ok.
  - by apply rewrite_row_nav_ok.
  - by repeat split.
  - by apply loadPage_nav_ok.
Qed.

Lemma reachable_nav_ok s : reachable s → nav_ok s ∧ in_viewport s.
Proof.
  induction 1 as [p h Hh|c s Hs [IH _] Hc].
  - split; [|by apply recomputeScroll_in_viewport].
    by apply recomputeScroll_nav_ok, loadPage_nav_ok.
  - pose proof (command_nav_ok c s IH Hc) as Hok.
    split; [exact Hok|].
    apply recomputeScroll_in_viewport. apply Hok.
Qed.

(** C6: in every state the input loop can reach, by moves, by folding or
    loading the node of any row, by resizing and by opening pages, the
    selected index is a row of the flattened view whenever that view has
    rows, and, each state being the outcome of a redraw, the selection is
    inside the viewport. *)
Theorem selection_stays_in_range_and_in_view s :
  reachable s →
  (visibleRows s ≠ [] →
     0 ≤ selectedIndex s < Z.of_nat (length (visibleRows s))) ∧
  scrollOffset s ≤ selectedIndex s ≤ scrollOffset s + viewportHeight s - 1.
Proof.
  intros Hr. destruct (reachable_nav_ok s Hr) as [(_ & H0 & Hlt & _) Hv].
  split; [|exact Hv]. intros Hne%rows_pos. split; [exact H0|by apply Hlt].
Qed.

Lemma selection_stays_in_range_and_in_view_witness :
  let s := step (ToggleFold 0) (step (MoveSelection 2)
             (recomputeScroll (loadPage sample_page 2))) in
  reachable s ∧
  visibleRows s = ["t1_a"; "t1_c"] ∧
  selectedIndex s = 1 ∧
  0 ≤ selectedIndex s < Z.of_nat (length (visibleRows s)) ∧
  scrollOffset s ≤ selectedIndex s ≤ scrollOffset s + viewportHeight s - 1.
Proof.
  cbv zeta.
  assert (reachable (step (ToggleFold 0) (step (MoveSelection 2)
            (recomputeScroll (loadPage sample_page 2))))) as Hr.
  { apply reach_step; [|exact I].
    apply reach_step; [|exact I].
    apply reach_init. lia. }
  destruct (selection_stays_in_range_and_in_view _ Hr) as [Hsel Hview].
  split; [exact Hr|]. split; [vm_compute; reflexivity|].
  split; [vm_compute; reflexivity|].
  split; [apply Hsel; discriminate|exact Hview].
Defined.

(** The tie-break rule: the selected reply is hidden when its parent is
    folded, and the selection moves to the parent. *)
Example fold_of_the_parent_selects_the_parent :
  let s := step (ToggleFold 0) (step (MoveSelection 1)
             (recomputeScroll (loadPage sample_page 2))) in
  visibleRows s = ["t1_a"; "t1_c"] ∧ selectedIndex s = 0.
Proof. vm_compute. done. Qed.

(** * Further properties of [main] and docs.py *)

Set Warnings "-clear-no-such-hyp".

(** ** The [try] statement *)

Lemma session_closes_when_client_bound_witness :
  reddit_ctor sample_env = Ret tt ∧
  ∃ mid,
    trace (snd (session sample_env (before_session sample_env))) =
      trace (before_session sample_env)
      ++ mid ++ [EvHttpClose; EvIOLoopClose; EvCursesExit] ∧
    Forall (λ e, is_close_event e = false) mid ∧
    reddit_bound (snd (session sample_env (before_session sample_env))) = true.
Proof.
  split; [reflexivity|].
  exact (session_closes_when_client_bound sample_env
           (before_session sample_env) eq_refl).
Defined.

(** X2: a [KeyboardInterrupt] that leaves the body of the [try] brings up
    the question once.  On yes [SystemExit] leaves [main]; on no [main]
    returns: the page that was left is not gone back to.  Either way the
    [finally] block runs first. *)
Theorem keyboard_interrupt_asks_then_ends_the_session env st0 st1 e :
  startup env (initial_state env) = (Ret tt, st0) →
  session_body env (entered st0) = (Raise e, st1) →
  is_keyboard_interrupt e = true →
  let b := answers env (prompts_shown st1) in
  fst (run env) =
    (if reddit_bound st1
     then if b then Raise SystemExit_exn else Ret tt
     else Raise UnboundLocalError_reddit) ∧
  trace (snd (run env)) =
    trace st1
    ++ EvPromptYesNo quit_prompt b :: (if b then [EvSysExit] else [])
    ++ (if reddit_bound st1 then [EvHttpClose; EvIOLoopClose] else [])
    ++ [EvCursesExit].
Proof.
  intros H0 H1 He. rewrite (main_eq _ _ H0), session_eq.
  unfold try_except_finally. rewrite H1.
  assert (is_service_error e = false) as Hs.
  { unfold is_keyboard_interrupt, is_service_error in *.
    by destruct (exn_cls e). }
  unfold except_clauses. rewrite Hs, He.
  destruct st1 as [tr ? ? rb ? ? ? ? ? ? ps ?]. machine.
  destruct (answers env ps), rb; machine; rewrite <- ?app_assoc; done.
Qed.

Lemma keyboard_interrupt_asks_then_ends_the_session_witness :
  let env := interrupted_env in
  fst (run env) = Ret tt ∧
  existsb is_prompt_event (trace (snd (run env))) = true.
Proof.
  cbv zeta.
  assert (startup interrupted_env (initial_state interrupted_env)
          = (Ret tt, before_session interrupted_env)) as H0
    by (vm_compute; reflexivity).
  assert (session_body interrupted_env (entered (before_session interrupted_env))
          = (Raise (mkExn KeyboardInterrupt "KeyboardInterrupt" ""),
             snd (session_body interrupted_env
                    (entered (before_session interrupted_env))))) as H1
    by (vm_compute; reflexivity).
  destruct (keyboard_interrupt_asks_then_ends_the_session
              interrupted_env _ _ _ H0 H1 eq_refl) as [Hr _].
  split; [exact Hr|vm_compute; reflexivity].
Defined.

(** X3: an exception that neither [except] clause names, such as the
    [SystemExit] of a quit confirmed in the handler or an [AttributeError],
    is not logged, not printed and not asked about: the [finally] block runs
    and the exception leaves [main] as it was. *)
Theorem other_exceptions_pass_through_after_cleanup env st0 st1 e :
  startup env (initial_state env) = (Ret tt, st0) →
  session_body env (entered st0) = (Raise e, st1) →
  is_service_error e = false →
  is_keyboard_interrupt e = false →
  fst (run env) =
    Raise (if reddit_bound st1 then e else UnboundLocalError_reddit) ∧
  trace (snd (run env)) =
    trace st1
    ++ (if reddit_bound st1 then [EvHttpClose; EvIOLoopClose] else [])
    ++ [EvCursesExit].
Proof.
  intros H0 H1 Hs Hk. rewrite (main_eq _ _ H0), session_eq.
  unfold try_except_finally. rewrite H1.
  unfold except_clauses. rewrite Hs, Hk.
  destruct st1 as [tr ? ? rb ? ? ? ? ? ? ps ?]. machine.
  destruct rb; machine; rewrite <- ?app_assoc; done.
Qed.

Lemma other_exceptions_pass_through_after_cleanup_witness :
  fst (run quit_env) = Raise SystemExit_exn ∧
  existsb is_prompt_event (trace (snd (run quit_env))) = false.
Proof.
  assert (startup quit_env (initial_state quit_env)
          = (Ret tt, before_session quit_env)) as H0
    by (vm_compute; reflexivity).
  assert (session_body quit_env (entered (before_session quit_env))
          = (Raise SystemExit_exn,
             snd (session_body quit_env (entered (before_session quit_env)))))
    as H1 by (vm_compute; reflexivity).
  destruct (other_exceptions_pass_through_after_cleanup
              quit_env _ _ _ H0 H1 eq_refl eq_refl) as [Hr _].
  split; [exact Hr|vm_compute; reflexivity].
Defined.

Lemma connect_opens_no_page env st :
  omap page_of (trace (snd (connect env st))) = omap page_of (trace st) ∧
  existsb is_fetch_event (trace (snd (connect env st)))
    = existsb is_fetch_event (trace st).
Proof.
  destruct st as [tr si sb rb a cu cp tf ort sa ps nv].
  machine. repeat (break_match; machine).
  all: rewrite <- ?app_assoc; rewrite omap_app, existsb_app; simpl.
  all: by rewrite app_nil_r, orb_false_r.
Qed.

(** X4: when connecting fails, in the constructor of the client, in the one
    of the OAuth tool or in [oauth.authorize()] with a stored token, no page
    is opened and no subscriptions are fetched; a service error among these
    ends [main] without an exception once the client exists. *)
Theorem failed_connection_opens_no_page env st0 st1 e :
  startup env (initial_state env) = (Ret tt, st0) →
  connect env (entered st0) = (Raise e, st1) →
  omap page_of (trace (snd (run env))) = [] ∧
  existsb is_fetch_event (trace (snd (run env))) = false ∧
  (is_service_error e = true →
     fst (run env) =
       (if reddit_bound st1 then Ret tt else Raise UnboundLocalError_reddit)).
Proof.
  intros H0 H1. rewrite (main_eq _ _ H0), session_eq.
  pose proof (connect_opens_no_page env (entered st0)) as [Hp Hf].
  rewrite H1 in Hp, Hf. cbn [snd] in Hp, Hf.
  destruct (startup_inv _ _ H0) as (Htr & _).
  destruct (startup_events_checks env) as (_ & Hf0 & _).
  assert (omap page_of (startup_events env) = []) as Hp0.
  { unfold startup_events.
    by destruct (truthy (getattr_None _ "clear_auth")),
      (truthy (getattr_None _ "log")). }
  assert (omap page_of (trace st1) = [] ∧
          existsb is_fetch_event (trace st1) = false) as [Hp1 Hf1].
  { rewrite Hp, Hf.
    assert (trace (entered st0) = trace st0 ++ [EvCursesEnter]) as ->
      by (by destruct st0).
    by rewrite Htr, omap_app, existsb_app, Hp0, Hf0. }
  clear Hp Hf Hp0 Hf0 Htr H0.
  unfold try_except_finally, session_body, bind. rewrite H1.
  unfold except_clauses.
  destruct st1 as [tr ? ? rb ? ? ? ? ? ? ps ?]. simpl in Hp1, Hf1.
  destruct (is_service_error e); [|destruct (is_keyboard_interrupt e)].
  all: machine.
  all: repeat (break_match; machine).
  all: rewrite <- ?app_assoc; rewrite omap_app, existsb_app, Hp1, Hf1.
  all: simpl; repeat split; intros; simplify_eq; done.
Qed.

Lemma failed_connection_opens_no_page_witness :
  omap page_of (trace (snd (run stale_token_env))) = [] ∧
  fst (run stale_token_env) = Ret tt.
Proof.
  assert (startup stale_token_env (initial_state stale_token_env)
          = (Ret tt, before_session stale_token_env)) as H0
    by (vm_compute; reflexivity).
  assert (connect stale_token_env (entered (before_session stale_token_env))
          = (Raise (mkExn PRAWException "OAuthInvalidToken" "invalid_token"),
             snd (connect stale_token_env
                    (entered (before_session stale_token_env))))) as H1
    by (vm_compute; reflexivity).
  destruct (failed_connection_opens_no_page stale_token_env _ _ _ H0 H1)
    as (Hp & _ & Hr).
  split; [exact Hp|exact (Hr eq_refl)].
Defined.

(** ** Start-up *)

(** X5: however lines 38-69 end, the first thing done is to install the
    handler, [stdscr] is not bound, and nothing in them calls the service,
    closes a connection, asks the user or starts curses. *)
Theorem startup_stays_local env :
  let st := snd (startup env (initial_state env)) in
  head (trace st) = Some EvSignalInstall ∧
  sigint_installed st = true ∧ stdscr_bound st = false ∧
  Forall (λ e, is_service_event e = false ∧ is_close_event e = false ∧
               is_prompt_event e = false ∧ is_curses_enter e = false)
    (trace st).
Proof.
  unfold startup, bind, attr, when, emit, modify, ret, clear_refresh_token.
  simpl.
  repeat (break_match; simpl).
  all: simplify_eq; simpl; repeat split; repeat constructor.
Qed.

(** X6: when the namespace, after the configuration file was merged in,
    lacks one of the attributes lines 59-66 read, [main] raises the
    [AttributeError] of the first one missing, before the curses session is
    entered and before any call to the service. *)
Theorem missing_attribute_stops_before_curses env name :
  first_missing startup_attributes (merged_args env) = Some name →
  fst (run env) = Raise (AttributeError_of name) ∧
  existsb is_curses_enter (trace (snd (run env))) = false ∧
  existsb is_service_event (trace (snd (run env))) = false.
Proof.
  unfold first_missing, startup_attributes, merged_args, run, main, startup,
    bind, attr, when, emit, modify, ret, clear_refresh_token.
  simpl.
  repeat (break_match; simpl).
  all: intros; simplify_eq; done.
Qed.

Lemma missing_attribute_stops_before_curses_witness :
  fst (run no_log_env) = Raise (AttributeError_of "log") ∧
  token_file (snd (run no_log_env)) = None.
Proof.
  assert (first_missing startup_attributes (merged_args no_log_env)
          = Some "log") as Hm by (vm_compute; reflexivity).
  destruct (missing_attribute_stops_before_curses no_log_env "log" Hm)
    as [Hr _].
  split; [exact Hr|vm_compute; reflexivity].
Defined.

(** X7: after lines 59-69, [config.unicode] is off exactly when
    [args.ascii] is true and otherwise as it was, [config.persistent] is off
    exactly when [args.persistent] is false, logging goes to the file
    [args.log] when that is true and to a null handler otherwise, and the
    stored token is deleted exactly when [args.clear_auth] is true. *)
Theorem startup_sets_the_switches env st0 :
  startup env (initial_state env) = (Ret tt, st0) →
  let arg name := getattr_None (merged_args env) name in
  config_unicode st0 =
    (if truthy (arg "ascii") then false
     else config_unicode (initial_state env)) ∧
  config_persistent st0 =
    (if truthy (arg "persistent") then config_persistent (initial_state env)
     else false) ∧
  last (trace st0) =
    Some (if truthy (arg "log") then EvLoggingBasicConfig (arg "log")
          else EvLoggingNullHandler) ∧
  token_file st0 =
    (if truthy (arg "clear_auth") then None else persisted_token env).
Proof.
  unfold startup, getattr_None, merged_args, bind, attr, when,
    emit, modify, ret, clear_refresh_token. simpl.
  intros H.
  destruct (fill_from_config _ _ !! "ascii") as [a|] eqn:Ha; [|done].
  destruct (truthy a) eqn:Hta; simpl in H;
  destruct (fill_from_config _ _ !! "persistent") as [p|] eqn:Hp; try done;
  destruct (truthy p) eqn:Htp; simpl in H;
  destruct (fill_from_config _ _ !! "clear_auth") as [c|] eqn:Hc; try done;
  destruct (truthy c) eqn:Htc; simpl in H;
  destruct (fill_from_config _ _ !! "log") as [l|] eqn:Hl; try done;
  simpl; destruct (truthy l) eqn:Htl; simpl in H; simplify_eq; simpl.
  all: rewrite ?Hta, ?Htp, ?Htc, ?Htl.
  all: repeat split; reflexivity.
Qed.

Lemma startup_sets_the_switches_witness :
  config_unicode (before_session ascii_log_env) = false ∧
  last (trace (before_session ascii_log_env))
    = Some (EvLoggingBasicConfig (VStr "rtv.log")).
Proof.
  assert (startup ascii_log_env (initial_state ascii_log_env)
          = (Ret tt, before_session ascii_log_env)) as H0
    by (vm_compute; reflexivity).
  destruct (startup_sets_the_switches ascii_log_env _ H0)
    as (Hu & _ & Hl & _).
  split; [exact Hu|exact Hl].
Defined.

Lemma fill_from_config_never_removes items : ∀ (ns : gmap string value) key,
  is_Some (ns !! key) → is_Some (fill_from_config items ns !! key).
Proof.
  induction items as [|[k val] rest IH]; intros ns key Hs; [done|].
  simpl. apply IH. destruct (is_None (getattr_None ns k)); [|done].
  destruct (decide (k = key)) as [->|Hne].
  - rewrite lookup_insert_eq. by eexists.
  - by rewrite lookup_insert_ne.
Qed.

(** X8: merging the configuration file leaves every attribute whose name
    is not a key of the file as it was, removes no attribute, and adds none
    but keys of the file. *)
Theorem config_file_touches_only_its_keys
  (items : list (string * value)) (ns : gmap string value) :
  (∀ key, key ∉ items.*1 → fill_from_config items ns !! key = ns !! key) ∧
  dom ns ⊆ dom (fill_from_config items ns) ∧
  dom (fill_from_config items ns) ⊆ dom ns ∪ list_to_set items.*1.
Proof.
  split; [intros key; apply fill_from_config_other|]. split.
  - intros key Hk. apply elem_of_dom, fill_from_config_never_removes.
    by apply elem_of_dom.
  - revert ns. induction items as [|[k val] rest IH]; intros ns; simpl.
    + set_solver.
    + etrans; [apply IH|].
      destruct (is_None (getattr_None ns k)); [|set_solver].
      rewrite dom_insert_L. set_solver.
Qed.

Lemma fill_from_config_settled items : ∀ (ns : gmap string value) key val,
  (key, val) ∈ items →
  getattr_None (fill_from_config items ns) key = VNone →
  fill_from_config items ns !! key = Some val.
Proof.
  induction items as [|[k v] rest IH]; intros ns key val Hin Hnone.
  - by apply elem_of_nil in Hin.
  - simpl in *. apply elem_of_cons in Hin as [Heq|Hin]; [|by apply IH].
    injection Heq as <- <-.
    destruct (is_None (getattr_None ns key)) eqn:Hk.
    + destruct (decide (val = VNone)) as [->|Hv].
      * destruct (fill_from_config_never_removes rest
                    (<[key:=VNone]> ns) key) as [w Hw].
        { rewrite lookup_insert_eq. by eexists. }
        unfold getattr_None in Hnone. rewrite Hw in *. simpl in Hnone.
        by subst.
      * apply fill_from_config_keeps; [apply lookup_insert_eq|done].
    + unfold getattr_None in Hk. destruct (ns !! key) as [w|] eqn:Hw; [|done].
      simpl in Hk.
      assert (w ≠ VNone) as Hne by (by destruct w).
      pose proof (fill_from_config_keeps rest ns key w Hw Hne) as Hkept.
      unfold getattr_None in Hnone. rewrite Hkept in Hnone. simpl in Hnone.
      by subst.
Qed.

Lemma fill_from_config_fixed items : ∀ (m : gmap string value),
  (∀ key val, (key, val) ∈ items → getattr_None m key = VNone →
              m !! key = Some val) →
  fill_from_config items m = m.
Proof.
  induction items as [|[k v] rest IH]; intros m Hm; [done|].
  simpl. destruct (is_None (getattr_None m k)) eqn:Hk.
  - apply is_None_true in Hk. rewrite insert_id by (apply Hm; [left|done]).
    apply IH. intros key val Hin. apply Hm. by right.
  - apply IH. intros key val Hin. apply Hm. by right.
Qed.

(** X9: merging the same configuration file a second time changes
    nothing. *)
Theorem config_file_applied_twice
  (items : list (string * value)) (ns : gmap string value) :
  fill_from_config items (fill_from_config items ns)
  = fill_from_config items ns.
Proof.
  apply fill_from_config_fixed. intros key val.
  apply fill_from_config_settled.
Qed.

(** ** Pages and subscriptions *)






Lemma insert_sorted_perm s l : insert_sorted s l ≡ₚ s :: l.
Proof.
  induction l as [|x xs IH]; simpl; [done|].
  destruct (String.leb s x); [done|].
  rewrite IH. apply Permutation_swap.
Qed.

Lemma insert_sorted_hd s x l :
  String.leb x s = true →
  HdRel (λ a b, String.leb a b = true) x l →
  HdRel (λ a b, String.leb a b = true) x (insert_sorted s l).
Proof.
  intros Hxs Hhd. destruct l as [|y ys]; simpl.
  - by constructor.
  - destruct (String.leb s y); constructor; [done|].
    by inversion Hhd.
Qed.

Lemma insert_sorted_sorted s l :
  Sorted (λ a b, String.leb a b = true) l →
  Sorted (λ a b, String.leb a b = true) (insert_sorted s l).
Proof.
  induction 1 as [|x xs Hs IH Hhd]; simpl.
  - by repeat constructor.
  - destruct (String.leb s x) eqn:Hsx.
    + constructor; [by constructor|by constructor].
    + constructor; [exact IH|].
      apply insert_sorted_hd; [|exact Hhd].
      destruct (String.leb_total s x) as [H|H]; [congruence|done].
Qed.

(** X12: the list of names line 88 builds has the fetched names, each as
    often as it was fetched, in ascending order. *)
Theorem subscription_names_are_sorted (l : list string) :
  sorted l ≡ₚ l ∧ Sorted (λ a b, String.leb a b = true) (sorted l).
Proof.
  unfold sorted. induction l as [|s l [IHp IHs]]; simpl.
  - split; [done|constructor].
  - split.
    + by rewrite insert_sorted_perm, IHp.
    + by apply insert_sorted_sorted.
Qed.

(** ** Interrupts in a row *)

(** X13: in the open curses session any number of interrupts that are all
    answered with no return to where they struck: each adds its prompt to
    the trace, and nothing else of the state changes. *)
Theorem declined_interrupts_change_nothing env n : ∀ st,
  sigint_installed st = true →
  stdscr_bound st = true →
  (∀ i, (i < n)%nat → answers env (prompts_shown st + i)%nat = false) →
  deliver_sigints env n st = (Ret tt, declined n st).
Proof.
  induction n as [|n IH]; intros st Hi Hb Hans.
  - destruct st. unfold declined. simpl.
    by rewrite app_nil_r, Nat.add_0_r.
  - assert (answers env (prompts_shown st) = false) as H0.
    { rewrite <- (Nat.add_0_r (prompts_shown st)). apply Hans. lia. }
    simpl. unfold bind.
    assert (deliver_sigint env st = (Ret tt, declined 1 st)) as ->.
    { destruct st as [tr si sb rb a cu cp tf ort sa ps nv].
      cbn [sigint_installed stdscr_bound prompts_shown] in *. subst.
      unfold declined. machine. rewrite H0. machine.
      by rewrite Nat.add_1_r. }
    rewrite IH.
    + unfold declined. simpl. f_equal. f_equal.
      * by rewrite <- app_assoc.
      * lia.
    + exact Hi.
    + exact Hb.
    + intros i Hlt. simpl.
      replace (prompts_shown st + 1 + i)%nat
        with (prompts_shown st + S i)%nat by lia.
      apply Hans. lia.
Qed.

Lemma declined_interrupts_change_nothing_witness :
  let st := entered (before_session sample_env) in
  deliver_sigints sample_env 3 st = (Ret tt, declined 3 st).
Proof.
  cbv zeta.
  apply (declined_interrupts_change_nothing sample_env 3);
    [vm_compute; reflexivity|vm_compute; reflexivity|reflexivity].
Defined.

(** ** The templates of docs.py *)

Lemma lines_nonempty s : lines s ≠ [].
Proof.
  destruct s as [|c s]; simpl; [done|].
  destruct (Ascii.eqb c "010"%char); [done|]. by destruct (lines s).
Qed.

Lemma lines_append_nl a b : lines (a +:+ nl +:+ b) = lines a ++ lines b.
Proof.
  induction a as [|c a IH]; [reflexivity|].
  change (String c a +:+ nl +:+ b) with (String c (a +:+ nl +:+ b)).
  simpl. rewrite IH.
  destruct (Ascii.eqb c "010"%char); [done|].
  pose proof (lines_nonempty a). by destruct (lines a).
Qed.

Lemma lines_append_nl_end a : lines (a +:+ nl) = lines a ++ [""].
Proof. exact (lines_append_nl a ""). Qed.

Lemma lines_one_line s : has_newline s = false → lines s = [s].
Proof.
  induction s as [|c s IH]; [done|]. simpl.
  destruct (Ascii.eqb c "010"%char); [done|]. simpl. intros H. by rewrite IH.
Qed.

Lemma has_newline_append a b :
  has_newline (a +:+ b) = has_newline a || has_newline b.
Proof.
  induction a as [|c a IH]; [done|]. simpl. rewrite IH.
  by destruct (Ascii.eqb c "010"%char).
Qed.

(** X14: filled in, each of the three templates consists of the lines of
    the content, in one piece, and of lines of its own.  Those are comment
    lines, which start with [#], and the empty line at the end (in
    [COMMENT_FILE] also the empty line at the start), provided the author,
    the type and the name contain no line feed. *)
Theorem templates_add_only_comment_and_empty_lines
  (author type name content : string) :
  has_newline author = false →
  has_newline type = false →
  has_newline name = false →
  (∃ added, lines (COMMENT_FILE_format author type content)
              = "" :: added ++ lines content ++ [""] ∧
            length added = 4%nat ∧
            Forall (λ l, is_comment_line l = true) added) ∧
  (∃ added, lines (COMMENT_EDIT_FILE_format content)
              = lines content ++ added ++ [""] ∧
            length added = 4%nat ∧
            Forall (λ l, is_comment_line l = true) added) ∧
  (∃ added, lines (SUBMISSION_FILE_format content name)
              = lines content ++ added ++ [""] ∧
            length added = 7%nat ∧
            Forall (λ l, is_comment_line l = true) added).
Proof.
  intros Ha Ht Hn.
  assert (lines ("# Replying to " +:+ author +:+ "'s " +:+ type)
          = ["# Replying to " +:+ author +:+ "'s " +:+ type]) as Hr.
  { apply lines_one_line. rewrite !has_newline_append, Ha, Ht. reflexivity. }
  assert (lines ("# Posting to " +:+ name) = ["# Posting to " +:+ name]) as Hp.
  { apply lines_one_line. rewrite has_newline_append, Hn. reflexivity. }
  unfold COMMENT_FILE_format, COMMENT_EDIT_FILE_format,
    SUBMISSION_FILE_format.
  split; [|split].
  - change (lines (nl +:+ ?x)) with ("" :: lines x).
    rewrite !lines_append_nl, lines_append_nl_end, Hr.
    eexists [_; _; _; _]. split; [reflexivity|].
    split; [reflexivity|]. repeat constructor.
  - rewrite !lines_append_nl, lines_append_nl_end.
    eexists [_; _; _; _]. split; [reflexivity|].
    split; [reflexivity|]. repeat constructor.
  - rewrite !lines_append_nl, lines_append_nl_end, Hp.
    eexists [_; _; _; _; _; _; _]. split; [reflexivity|].
    split; [reflexivity|]. repeat constructor.
Qed.

Lemma templates_add_only_comment_and_empty_lines_witness :
  ∃ added, lines (SUBMISSION_FILE_format "A title" "/r/python")
             = lines "A title" ++ added ++ [""] ∧
           length added = 7%nat ∧
           Forall (λ l, is_comment_line l = true) added.
Proof.
  exact (proj2 (proj2
    (templates_add_only_comment_and_empty_lines
       "spez" "comment" "/r/python" "A title" eq_refl eq_refl eq_refl))).
Defined.
